(** * Mixtape auth-service: the HTTP handlers of [api/api.go]

    A shallow embedding of the six handlers registered by [RegisterRoutes]
    ([signup], [signin], [logout], [verify], [sendReset], [resetPassword])
    and of the part of their environment that they observe: the [users]
    table behind the package-level handle [DB], the wall clock, bcrypt, the
    random-token and uuid generators, the claims signer [setClaims] and the
    mail gateway [SendEmail].

    The handlers are written in a small state monad with early exit, so
    that each definition can be read side by side with the Go function of
    the same name.  Every call that leaves the handler is recorded, in
    order, together with what it returned. *)

From Stdlib Require Import ZArith List String Ascii Bool Lia DecimalString.
Import ListNotations.
Local Open Scope string_scope.
Local Open Scope Z_scope.

Set Implicit Arguments.

(** ** Go values used by the handlers *)

(** [error]: [None] is Go's [nil], [Some m] an error whose [Error()] is [m]. *)
Definition error := option string.

Definition is_nil (err : error) : bool :=
  match err with None => true | Some _ => false end.

(** [time.Time] and [time.Duration] are counted in nanoseconds. *)
Definition Time := Z.
Definition Duration := Z.
Definition Second : Duration := 1000000000.
Definition Add (t : Time) (d : Duration) : Time := t + d.
Definition Unix (t : Time) : Z := t / Second.

Definition StatusOK : Z := 200.
Definition StatusCreated : Z := 201.
Definition StatusBadRequest : Z := 400.
Definition StatusNotFound : Z := 404.
Definition StatusNotAcceptable : Z := 406.
Definition StatusConflict : Z := 409.
Definition StatusInternalServerError : Z := 500.

Definition verifyTokenSize : Z := 6.
Definition resetTokenSize : Z := 6.

(** The request body type; the handlers read its three fields. *)
Record Credentials := mkCredentials {
  Username : string;
  Email : string;
  Password : string
}.

(** [AuthClaims]: a [UserID] next to the embedded [jwt.StandardClaims], of
    which the handlers fill four fields. *)
Record AuthClaims := mkAuthClaims {
  UserID : string;
  Subject : string;
  ExpiresAt : Z;
  Issuer : string;
  IssuedAt : Z
}.

(** [http.Cookie]; an unset [Path] is the empty string. *)
Record Cookie := mkCookie {
  Name : string;
  Value : string;
  Expires : Time;
  Path : string
}.

(** A request as the handlers see it: the method, the parsed query string
    ([url.Values]) and the JSON body, [None] when it does not decode. *)
Record Request := mkRequest {
  Method : string;
  Query : list (string * list string);
  Body : option Credentials
}.

(** [r.URL.Query()[key]] with Go's comma-ok. *)
Fixpoint Values_index (q : list (string * list string)) (key : string)
  : option (list string) :=
  match q with
  | [] => None
  | (k, vs) :: q' => if (k =? key)%string then Some vs else Values_index q' key
  end.

(** [r.URL.Query().Get(key)]: the first value, or the empty string. *)
Definition Values_Get (q : list (string * list string)) (key : string) : string :=
  match Values_index q key with
  | Some (v :: _) => v
  | _ => ""
  end.

(** ** The users table *)

(** One row.  [resetToken] and [password] are only ever written by UPDATE
    statements, so a row can hold SQL NULL there ([None]). *)
Record User := mkUser {
  username : string;
  email : string;
  hashedPassword : string;
  verified : bool;
  resetToken : option string;
  verifiedToken : string;
  userId : string;
  password : option string
}.

(** The eight statement texts that occur in [api.go]. *)
Inductive Sql :=
| SelectExistsByUsername
| SelectExistsByEmail
| InsertUser
| SelectHashedPasswordUserId
| UpdateVerified
| UpdateResetToken
| SelectExistsByUsernameResetToken
| UpdateResetTokenPassword.

(** A Go value passed for a [?] placeholder. *)
Inductive SqlArg :=
| ArgInt (z : Z)
| ArgString (s : string)
| ArgBytes (b : string)
| ArgStrings (l : list string).

(** What [database/sql] hands to the driver after converting an argument. *)
Inductive DriverValue :=
| VInt (z : Z)
| VText (s : string).

Inductive DbReply :=
| DbErr (msg : string)
| DbNoRows
| DbBool (b : bool)
| DbRow (c1 c2 : string)
| DbDone (affected : nat).

Definition decimal (n : nat) : string :=
  NilEmpty.string_of_uint (Nat.to_uint n).

(** [driver.DefaultParameterConverter.ConvertValue]: integers, strings and
    byte slices pass; any other slice is refused. *)
Definition ConvertValue (a : SqlArg) : string + DriverValue :=
  match a with
  | ArgInt z => inr (VInt z)
  | ArgString s => inr (VText s)
  | ArgBytes b => inr (VText b)
  | ArgStrings _ => inl "unsupported type []string, a slice of string"
  end.

Fixpoint driverArgs (pos : nat) (args : list SqlArg) : string + list DriverValue :=
  match args with
  | [] => inr []
  | a :: rest =>
      match ConvertValue a with
      | inl e => inl ("sql: converting argument $" ++ decimal pos ++ " type: " ++ e)
      | inr v =>
          match driverArgs (S pos) rest with
          | inl e => inl e
          | inr vs => inr (v :: vs)
          end
      end
  end.

Definition text (v : DriverValue) : string :=
  match v with
  | VText s => s
  | VInt z => NilEmpty.string_of_int (Z.to_int z)
  end.

Definition truthy (v : DriverValue) : bool :=
  match v with
  | VInt z => negb (z =? 0)
  | VText s => negb ((s =? "") || (s =? "0"))%string
  end.

Definition opt_eqb (o : option string) (s : string) : bool :=
  match o with
  | Some t => (t =? s)%string
  | None => false
  end.

Definition set_verified (b : bool) (u : User) : User :=
  mkUser (username u) (email u) (hashedPassword u) b (resetToken u)
         (verifiedToken u) (userId u) (password u).

Definition set_resetToken (t : string) (u : User) : User :=
  mkUser (username u) (email u) (hashedPassword u) (verified u) (Some t)
         (verifiedToken u) (userId u) (password u).

Definition set_resetToken_password (t p : string) (u : User) : User :=
  mkUser (username u) (email u) (hashedPassword u) (verified u) (Some t)
         (verifiedToken u) (userId u) (Some p).

(** [UPDATE users SET ... WHERE cond]: every row satisfying [cond] is
    rewritten, the others are kept, the order of rows is kept. *)
Definition update_where (cond : User -> bool) (f : User -> User)
  (rows : list User) : list User :=
  map (fun u => if cond u then f u else u) rows.

Definition count_where (cond : User -> bool) (rows : list User) : nat :=
  List.length (filter cond rows).

(** The table definition is not part of [api.go].  The one fact about it
    that decides what a statement of the file does is whether the table
    has the column [password] named by the last statement of
    [resetPassword]; it is a parameter.  Columns that the INSERT of
    [signup] does not name take [verified = false] and NULL. *)
Definition run_sql (has_password_column : bool) (q : Sql) (vs : list DriverValue)
  (rows : list User) : DbReply * list User :=
  match q, vs with
  | SelectExistsByUsername, [u] =>
      (DbBool (existsb (fun r => username r =? text u)%string rows), rows)
  | SelectExistsByEmail, [e] =>
      (DbBool (existsb (fun r => email r =? text e)%string rows), rows)
  | InsertUser, [u; e; h; t; i] =>
      (DbDone 1,
       (rows ++ [mkUser (text u) (text e) (text h) false None (text t) (text i) None])%list)
  | SelectHashedPasswordUserId, [e] =>
      match find (fun r => email r =? text e)%string rows with
      | Some r => (DbRow (hashedPassword r) (userId r), rows)
      | None => (DbNoRows, rows)
      end
  | UpdateVerified, [v; t] =>
      let cond := fun r => (verifiedToken r =? text t)%string in
      (DbDone (count_where cond rows), update_where cond (set_verified (truthy v)) rows)
  | UpdateResetToken, [t; e] =>
      let cond := fun r => (email r =? text e)%string in
      (DbDone (count_where cond rows), update_where cond (set_resetToken (text t)) rows)
  | SelectExistsByUsernameResetToken, [u; t] =>
      (DbBool (existsb (fun r => (username r =? text u)%string
                                 && opt_eqb (resetToken r) (text t)) rows), rows)
  | UpdateResetTokenPassword, [t; h; e] =>
      if has_password_column then
        let cond := fun r => (email r =? text e)%string in
        (DbDone (count_where cond rows),
         update_where cond (set_resetToken_password (text t) (text h)) rows)
      else (DbErr "Error 1054: Unknown column 'password' in 'field list'", rows)
  | _, _ => (DbErr "sql: wrong number of arguments", rows)
  end.

(** A statement with its arguments: conversion first, then the statement. *)
Definition db_exec (has_password_column : bool) (q : Sql) (args : list SqlArg)
  (rows : list User) : DbReply * list User :=
  match driverArgs 1 args with
  | inl e => (DbErr e, rows)
  | inr vs => run_sql has_password_column q vs rows
  end.

(** ** What a Go call returns *)

(** The [err] of [QueryRow(..).Scan], [Query] and [Exec]. *)
Definition reply_err (r : DbReply) : error :=
  match r with
  | DbErr m => Some m
  | DbNoRows => Some "sql: no rows in result set"
  | _ => None
  end.

(** [err == sql.ErrNoRows] *)
Definition is_ErrNoRows (r : DbReply) : bool :=
  match r with DbNoRows => true | _ => false end.

(** The value left in [exists] by [Scan(&exists)]. *)
Definition scan_bool (r : DbReply) : bool :=
  match r with DbBool b => b | _ => false end.

(** The values left by [Scan(&hashedPassword, &userID)]. *)
Definition scan_row (r : DbReply) : string * string :=
  match r with DbRow a b => (a, b) | _ => ("", "") end.

(** The [sql.Result] of [Exec]: [nil] ([None]) exactly when [err] is not. *)
Definition exec_result (r : DbReply) : option nat :=
  match r with DbDone n => Some n | _ => None end.

(** ** Calls that leave the handler *)

Inductive Event :=
| EvDb (q : Sql) (args : list SqlArg) (r : DbReply)
| EvHash (pw : string) (r : option string)
| EvCompare (hashed pw : string) (ok : bool)
| EvUUID (id : string)
| EvRandom (size : Z) (tok : string)
| EvNow (t : Time)
| EvSign (c : AuthClaims) (r : option string)
| EvMail (to subject template token : string) (err : error).

(** Everything outside the file that a handler depends on.  The three
    package-level constants are declared in another file of the package;
    the oracles are indexed by the number of calls made so far, so that an
    environment can answer every call of a run differently. *)
Record Env := mkEnv {
  DefaultAccessJWTExpiry : Duration;
  DefaultRefreshJWTExpiry : Duration;
  defaultJWTIssuer : string;
  has_password_column : bool;
  clock : nat -> Time;
  io_fault : nat -> error;
  GenerateFromPassword : string -> nat -> option string;
  CompareHashAndPassword : string -> string -> bool;
  uuid_New : nat -> string;
  RandomBase62 : Z -> nat -> string;
  sign : AuthClaims -> nat -> option string
}.

(** The state between requests: the table and the number of calls served. *)
Record World := mkWorld {
  users : list User;
  tick : nat
}.

(** [http.ResponseWriter]: the status once written, the body, the
    [Set-Cookie] headers. *)
Record ResponseWriter := mkWriter {
  wroteHeader : option Z;
  body : string;
  setCookies : list Cookie
}.

Record HState := mkHState {
  st_users : list User;
  st_tick : nat;
  st_calls : list Event;
  st_w : ResponseWriter
}.

(** ** The handler monad *)

Inductive Flow (A : Type) :=
| Next (a : A)
| Returned
| Panicked.
Arguments Returned {A}.
Arguments Panicked {A}.

Definition Handler (A : Type) := HState -> Flow A * HState.

Definition ret {A} (a : A) : Handler A := fun s => (Next a, s).

Definition bind {A B} (m : Handler A) (k : A -> Handler B) : Handler B :=
  fun s =>
    match m s with
    | (Next a, s') => k a s'
    | (Returned, s') => (Returned, s')
    | (Panicked, s') => (Panicked, s')
    end.

(** Go's [return] in a handler. *)
Definition Return {A} : Handler A := fun s => (Returned, s).

Definition panic {A} : Handler A := fun s => (Panicked, s).

Declare Scope handler_scope.
Delimit Scope handler_scope with handler.
Notation "x <- m ;; k" := (bind m (fun x => k))
  (at level 61, m at next level, right associativity) : handler_scope.
Notation "m ;; k" := (bind m (fun _ => k))
  (at level 61, right associativity) : handler_scope.
Local Open Scope handler_scope.

Definition record (e : Event) (s : HState) : HState :=
  mkHState (st_users s) (S (st_tick s)) (e :: st_calls s) (st_w s).

Definition nl : string := String (ascii_of_nat 10) EmptyString.

(** [w.WriteHeader(code)]; a second call is ignored. *)
Definition WriteHeader (code : Z) : Handler unit := fun s =>
  (Next tt,
   mkHState (st_users s) (st_tick s) (st_calls s)
     (match wroteHeader (st_w s) with
      | None => mkWriter (Some code) (body (st_w s)) (setCookies (st_w s))
      | Some _ => st_w s
      end)).

(** [w.Write]; writing before [WriteHeader] sends status 200. *)
Definition Write (b : string) : Handler unit := fun s =>
  (Next tt,
   mkHState (st_users s) (st_tick s) (st_calls s)
     (mkWriter (match wroteHeader (st_w s) with None => Some StatusOK | c => c end)
               (body (st_w s) ++ b) (setCookies (st_w s)))).

(** [http.Error(w, msg, code)] *)
Definition http_Error (msg : string) (code : Z) : Handler unit :=
  WriteHeader code ;; Write (msg ++ nl).

(** [http.SetCookie(w, &c)]: headers set after the status has been written
    do not reach the client. *)
Definition http_SetCookie (c : Cookie) : Handler unit := fun s =>
  (Next tt,
   mkHState (st_users s) (st_tick s) (st_calls s)
     (match wroteHeader (st_w s) with
      | None => mkWriter None (body (st_w s)) (setCookies (st_w s) ++ [c])%list
      | Some _ => st_w s
      end)).

(** [log.Print(err.Error())]: calling [Error] on a nil [error] panics. *)
Definition log_Print_Error (err : error) : Handler unit :=
  match err with
  | Some _ => ret tt
  | None => panic
  end.

(** [log.Print(errors.New(msg).Error())] *)
Definition log_Print (msg : string) : Handler unit := ret tt.

Section Api.

Variable E : Env.

(** [DB.QueryRow(q, args...).Scan(..)], [DB.Query(q, args...)] and
    [DB.Exec(q, args...)]: a connection fault, or the statement. *)
Definition DB_call (q : Sql) (args : list SqlArg) : Handler DbReply := fun s =>
  let '(r, rows) :=
    match io_fault E (st_tick s) with
    | Some m => (DbErr m, st_users s)
    | None => db_exec (has_password_column E) q args (st_users s)
    end in
  (Next r, record (EvDb q args r) (mkHState rows (st_tick s) (st_calls s) (st_w s))).

Definition DB_QueryRow := DB_call.
Definition DB_Query := DB_call.
Definition DB_Exec := DB_call.

Definition bcrypt_GenerateFromPassword (pw : string) : Handler (option string) :=
  fun s =>
    let r := GenerateFromPassword E pw (st_tick s) in
    (Next r, record (EvHash pw r) s).

(** [true] stands for the [nil] error of [bcrypt.CompareHashAndPassword]. *)
Definition bcrypt_CompareHashAndPassword (hashed pw : string) : Handler bool :=
  fun s =>
    let ok := CompareHashAndPassword E hashed pw in
    (Next ok, record (EvCompare hashed pw ok) s).

Definition uuid_New_String : Handler string := fun s =>
  let id := uuid_New E (st_tick s) in
  (Next id, record (EvUUID id) s).

Definition GetRandomBase62 (size : Z) : Handler string := fun s =>
  let t := RandomBase62 E size (st_tick s) in
  (Next t, record (EvRandom size t) s).

Definition time_Now : Handler Time := fun s =>
  let t := clock E (st_tick s) in
  (Next t, record (EvNow t) s).

Definition setClaims (c : AuthClaims) : Handler (option string) := fun s =>
  let r := sign E c (st_tick s) in
  (Next r, record (EvSign c r) s).

Definition SendEmail (to subject template token : string) : Handler error :=
  fun s =>
    let err := io_fault E (st_tick s) in
    (Next err, record (EvMail to subject template token err) s).

(** The same four statements issue each of the two cookies of [signup]
    (lines 134-165 and 168-192) and of [signin] (lines 257-286 and
    290-314): read the clock for the expiry, read it again for [IssuedAt],
    sign, set the cookie. *)
Definition sessionCookie (subject cookieName failure : string)
  (expiry : Duration) (userID : string) : Handler unit :=
  now1 <- time_Now ;;
  let expiresAt := Add now1 expiry in
  now2 <- time_Now ;;
  signed <- setClaims (mkAuthClaims userID subject (Unix expiresAt)
                                    (defaultJWTIssuer E) (Unix now2)) ;;
  match signed with
  | None =>
      http_Error failure StatusInternalServerError ;;
      Return
  | Some token =>
      http_SetCookie (mkCookie cookieName token expiresAt "/")
  end.

Definition accessCookie (userID : string) : Handler unit :=
  sessionCookie "access" "access_token" "error generating access token"
                (DefaultAccessJWTExpiry E) userID.

Definition refreshCookie (userID : string) : Handler unit :=
  sessionCookie "refresh" "refresh_token" "error creating refreshToken"
                (DefaultRefreshJWTExpiry E) userID.

Definition signup (r : Request) : Handler unit :=
  if (Method r =? "OPTIONS")%string then Return else
  let username := Values_Get (Query r) "username" in
  let email := Values_Get (Query r) "email" in
  let password := Values_Get (Query r) "password" in
  q <- DB_QueryRow SelectExistsByUsername [ArgString username] ;;
  if negb (is_nil (reply_err q)) then
    http_Error "error checking if username exists" StatusInternalServerError ;;
    log_Print_Error (reply_err q) ;;
    Return
  else if scan_bool q then
    http_Error "this username is taken" StatusConflict ;;
    Return
  else
  q <- DB_QueryRow SelectExistsByEmail [ArgString email] ;;
  if negb (is_nil (reply_err q)) then
    http_Error "error checking if email exists" StatusInternalServerError ;;
    log_Print_Error (reply_err q) ;;
    Return
  else if scan_bool q then
    http_Error "this email is taken" StatusConflict ;;
    Return
  else
  h <- bcrypt_GenerateFromPassword password ;;
  match h with
  | None =>
      http_Error "error encrypting password" StatusInternalServerError ;;
      Return
  | Some hashed =>
      ok <- bcrypt_CompareHashAndPassword hashed password ;;
      if negb ok then
        http_Error "hashed password does not match original" StatusConflict ;;
        Return
      else
      newUUID <- uuid_New_String ;;
      newToken <- GetRandomBase62 verifyTokenSize ;;
      q <- DB_Query InsertUser
             [ArgString username; ArgString email; ArgBytes hashed;
              ArgString newToken; ArgString newUUID] ;;
      if negb (is_nil (reply_err q)) then
        http_Error "issue storing credentials" StatusInternalServerError ;;
        log_Print_Error (reply_err q) ;;
        Return
      else
      accessCookie newUUID ;;
      refreshCookie newUUID ;;
      err <- SendEmail email "Email Verification" "user-signup.html" newToken ;;
      if negb (is_nil err) then
        http_Error "error sending verification email" StatusInternalServerError ;;
        log_Print_Error err ;;
        Return
      else
      WriteHeader StatusCreated ;;
      Return
  end.

Definition signin (r : Request) : Handler unit :=
  if (Method r =? "OPTIONS")%string then Return else
  match Body r with
  | None =>
      http_Error "issue storing credentials" StatusInternalServerError ;;
      Return
  | Some credentials =>
      q <- DB_QueryRow SelectHashedPasswordUserId [ArgString (Email credentials)] ;;
      let '(hashedPassword, userID) := scan_row q in
      if negb (is_nil (reply_err q)) then
        (if is_ErrNoRows q then
           http_Error "this email is not associated with an account" StatusNotFound
         else
           http_Error "error retrieving information with this email"
                      StatusInternalServerError ;;
           log_Print_Error (reply_err q)) ;;
        Return
      else
      ok <- bcrypt_CompareHashAndPassword hashedPassword (Password credentials) ;;
      if negb ok then
        http_Error "incorrect password" StatusInternalServerError ;;
        Return
      else
      accessCookie userID ;;
      refreshCookie userID
  end.

Definition logout (r : Request) : Handler unit :=
  if (Method r =? "OPTIONS")%string then Return else
  expiresAt <- time_Now ;;
  http_SetCookie (mkCookie "access_token" ""
                    (Add expiresAt (- DefaultAccessJWTExpiry E)) "") ;;
  http_SetCookie (mkCookie "refresh_token" ""
                    (Add expiresAt (- DefaultRefreshJWTExpiry E)) "") ;;
  Return.

(** [token] is the whole [[]string] found under the key, and it is that
    slice which line 354 passes for the second placeholder. *)
Definition verify (r : Request) : Handler unit :=
  if (Method r =? "OPTIONS")%string then Return else
  let missing :=
    http_Error "url Param 'token' is missing" StatusInternalServerError ;;
    log_Print "url Param 'token' is missing" ;;
    Return in
  match Values_index (Query r) "token" with
  | None => missing
  | Some [] => panic
  | Some ((t0 :: _) as token) =>
      if (Z.of_nat (String.length t0) <? 1) then missing else
      q <- DB_Exec UpdateVerified [ArgInt 1; ArgStrings token] ;;
      match exec_result q with
      | None =>
          http_Error "invalid token" StatusNotFound ;;
          log_Print_Error (reply_err q) ;;
          Return
      | Some _ =>
          if negb (is_nil (reply_err q)) then
            http_Error "issue storing credentials" StatusBadRequest ;;
            log_Print_Error (reply_err q) ;;
            Return
          else Return
      end
  end.

(** In the branch for an empty address [err] still holds the [nil] left by
    the decoder. *)
Definition sendReset (r : Request) : Handler unit :=
  if (Method r =? "OPTIONS")%string then Return else
  match Body r with
  | None =>
      http_Error "issue retrieving email" StatusInternalServerError ;;
      Return
  | Some credentials =>
      if (Email credentials =? "")%string then
        http_Error "invalid email address" StatusNotAcceptable ;;
        log_Print_Error None ;;
        Return
      else
      token <- GetRandomBase62 resetTokenSize ;;
      q <- DB_Query UpdateResetToken [ArgString token; ArgString (Email credentials)] ;;
      if negb (is_nil (reply_err q)) then
        http_Error "error setting resetToken" StatusInternalServerError ;;
        log_Print_Error (reply_err q) ;;
        Return
      else
      err <- SendEmail (Email credentials) "BearChat Password Reset"
                       "password-reset.html" token ;;
      if negb (is_nil err) then
        http_Error "error sending verification email" StatusInternalServerError ;;
        log_Print_Error err ;;
        Return
      else Return
  end.

(** Up to the last statement every [log.Print(err.Error())] that follows a
    passed [err != nil] test finds [err] nil. *)
Definition resetPassword (r : Request) : Handler unit :=
  if (Method r =? "OPTIONS")%string then Return else
  let token := Values_Get (Query r) "token" in
  match Body r with
  | None =>
      http_Error "issue retrieving credentials" StatusInternalServerError ;;
      Return
  | Some credentials =>
      if (Username credentials =? "")%string then
        http_Error "invalid username" StatusNotAcceptable ;;
        log_Print_Error None ;;
        Return
      else if (Email credentials =? "")%string then
        http_Error "invalid email address" StatusNotAcceptable ;;
        log_Print_Error None ;;
        Return
      else if (Password credentials =? "")%string then
        http_Error "invalid password" StatusNotAcceptable ;;
        log_Print_Error None ;;
        Return
      else
      let email := Email credentials in
      let username := Username credentials in
      let password := Password credentials in
      q <- DB_QueryRow SelectExistsByUsernameResetToken
             [ArgString username; ArgString token] ;;
      if negb (is_nil (reply_err q)) then
        http_Error "issue retrieving username and token pair"
                   StatusInternalServerError ;;
        log_Print_Error (reply_err q) ;;
        Return
      else if negb (scan_bool q) then
        http_Error "username and token pair does not exist" StatusNotFound ;;
        log_Print_Error (reply_err q) ;;
        Return
      else
      h <- bcrypt_GenerateFromPassword password ;;
      match h with
      | None =>
          http_Error "error encrypting password" StatusInternalServerError ;;
          log_Print_Error (reply_err q) ;;
          Return
      | Some hashed =>
          q <- DB_Exec UpdateResetTokenPassword
                 [ArgString ""; ArgBytes hashed; ArgString email] ;;
          match reply_err q with
          | Some msg =>
              http_Error msg StatusBadRequest ;;
              log_Print_Error (reply_err q)
          | None => ret tt
          end ;;
          Return
      end
  end.

(** ** Serving one request *)

(** What the client receives: a response, or a closed connection when the
    handler panicked (the server recovers the panic and drops the
    connection with the buffered response unsent). *)
Inductive Outcome :=
| Aborted
| Replied (status : Z) (body : string) (cookies : list Cookie).

Record Reply := mkReply {
  final : World;
  calls : list Event;
  outcome : Outcome
}.

Definition serve (h : Request -> Handler unit) (w : World) (r : Request) : Reply :=
  let '(flow, s) := h r (mkHState (users w) (tick w) [] (mkWriter None "" [])) in
  mkReply (mkWorld (st_users s) (st_tick s))
          (rev (st_calls s))
          (match flow with
           | Panicked => Aborted
           | _ => Replied (match wroteHeader (st_w s) with
                           | Some c => c
                           | None => StatusOK
                           end)
                          (body (st_w s)) (setCookies (st_w s))
           end).

End Api.

Unset Implicit Arguments.

(** ** Vocabulary of the properties *)

Definition status (o : Outcome) : option Z :=
  match o with
  | Replied c _ _ => Some c
  | Aborted => None
  end.

Definition cookies_of (o : Outcome) : list Cookie :=
  match o with
  | Replied _ _ cs => cs
  | Aborted => []
  end.

(** The call came back with a non-nil error. *)
Definition errored (e : Event) : bool :=
  match e with
  | EvDb _ _ r => negb (is_nil (reply_err r))
  | EvHash _ r => match r with None => true | Some _ => false end
  | EvCompare _ _ ok => negb ok
  | EvSign _ r => match r with None => true | Some _ => false end
  | EvMail _ _ _ _ err => negb (is_nil err)
  | _ => false
  end.

(** A uniqueness check of [signup] that found the name or address in use. *)
Definition taken (e : Event) : bool :=
  match e with
  | EvDb SelectExistsByUsername _ (DbBool true) => true
  | EvDb SelectExistsByEmail _ (DbBool true) => true
  | _ => false
  end.

Definition step_failed (e : Event) : bool := errored e || taken e.

(** The steps of an operation that the lifecycle table names. *)
Inductive Step :=
| CheckUsername
| CheckEmail
| HashPassword
| StoreInsert
| IssueAccess
| IssueRefresh
| Notify.

Definition step_of (e : Event) : option Step :=
  match e with
  | EvDb SelectExistsByUsername _ _ => Some CheckUsername
  | EvDb SelectExistsByEmail _ _ => Some CheckEmail
  | EvHash _ _ => Some HashPassword
  | EvDb InsertUser _ _ => Some StoreInsert
  | EvSign c _ =>
      if (Subject c =? "access")%string then Some IssueAccess
      else if (Subject c =? "refresh")%string then Some IssueRefresh
      else None
  | EvMail _ _ _ _ _ => Some Notify
  | _ => None
  end.

Fixpoint steps (l : list Event) : list Step :=
  match l with
  | [] => []
  | e :: l' =>
      match step_of e with
      | Some s => s :: steps l'
      | None => steps l'
      end
  end.



(** [p] occurs in [l] as a block of neighbours. *)
Inductive infix {A : Type} (p : list A) : list A -> Prop :=
| infix_here : forall l, infix p (p ++ l)%list
| infix_later : forall x l, infix p l -> infix p (x :: l).

(** The expiry that goes with a [Subject]. *)
Definition expiry_of (E : Env) (subject : string) : Duration :=
  if (subject =? "access")%string then DefaultAccessJWTExpiry E
  else DefaultRefreshJWTExpiry E.

(** What [signin] reads of a row. *)
Definition login_view (u : User) : string * string * string :=
  (email u, hashedPassword u, userId u).

(** ** A sample environment *)

(** A quarter of an hour and a week for the two expiries, a hash that is
    its salt followed by the password, generators that count calls. *)
Definition sampleEnv (column : bool) (clk : nat -> Time) (fault : nat -> error)
  : Env :=
  mkEnv (900 * Second) (604800 * Second) "bearchat" column clk fault
    (fun pw n => Some ("$2a$10$" ++ pw))
    (fun h pw => (h =? "$2a$10$" ++ pw)%string)
    (fun n => "uuid-" ++ decimal n)
    (fun size n => "Tok" ++ decimal (100 + Nat.modulo n 900))
    (fun c n => Some (Subject c ++ "." ++ UserID c)).

Definition steady_clock (n : nat) : Time := 1700000000 * Second + Z.of_nat n.
Definition ticking_clock (n : nat) : Time := (1700000000 + Z.of_nat n) * Second.
Definition no_fault (n : nat) : error := None.
Definition outage (n : nat) : error := Some "dial tcp: connection refused".

Definition post (q : list (string * list string)) (b : option Credentials)
  : Request := mkRequest "POST" q b.

Definition alice : User :=
  mkUser "alice" "alice@x.com" "$2a$10$pw1" false None "Ab3dE9" "uuid-a" None.

Definition bob : User :=
  mkUser "bob" "bob@x.com" "$2a$10$hunter2" false (Some "Zz91qP") "k04Lmn"
         "uuid-b" None.

Definition signup_alice (pw : string) : Request :=
  post [("username", ["alice"]); ("email", ["alice@x.com"]); ("password", [pw])]
       None.

Definition signin_alice (pw : string) : Request :=
  post [] (Some (mkCredentials "" "alice@x.com" pw)).

Definition reset_alice (token pw : string) : Request :=
  post [("token", [token])] (Some (mkCredentials "alice" "alice@x.com" pw)).

(** The reset token that the table holds for a user name. *)
Definition pending_token (name : string) (rows : list User) : string :=
  match find (fun u => (username u =? name)%string) rows with
  | Some u => match resetToken u with Some t => t | None => "" end
  | None => ""
  end.

(** The scenario of the specification, run from an empty table: the
    outcomes of the seven requests in order. *)
Definition scenario (E : Env) : list Outcome :=
  let s1 := serve (signup E) (mkWorld [] 0) (signup_alice "pw1") in
  let s2 := serve (signin E) (final s1) (signin_alice "pw1") in
  let s3 := serve (signin E) (final s2) (signin_alice "wrong") in
  let s4 := serve (sendReset E) (final s3)
                  (post [] (Some (mkCredentials "" "alice@x.com" ""))) in
  let T := pending_token "alice" (users (final s4)) in
  let s5 := serve (resetPassword E) (final s4) (reset_alice T "pw2") in
  let s6 := serve (signin E) (final s5) (signin_alice "pw1") in
  let s7 := serve (signin E) (final s6) (signin_alice "pw2") in
  map outcome [s1; s2; s3; s4; s5; s6; s7].

(** ** The routing table and views of a row *)

(** [RegisterRoutes]: the six paths and the function registered for each;
    every one of them is registered for the methods POST and OPTIONS. *)
Definition routes (E : Env) : list (string * (Request -> Handler unit)) :=
  [("/api/auth/signup", signup E);
   ("/api/auth/signin", signin E);
   ("/api/auth/logout", logout E);
   ("/api/auth/verify", verify E);
   ("/api/auth/sendreset", sendReset E);
   ("/api/auth/resetpw", resetPassword E)].

(** The columns of a row other than [resetToken] and [password]. *)
Definition frozen_view (u : User)
  : string * string * string * bool * string * string :=
  (username u, email u, hashedPassword u, verified u, verifiedToken u, userId u).

(** No user name and no email occurs in two rows. *)
Definition unique_names (rows : list User) : Prop :=
  NoDup (map username rows) /\ NoDup (map email rows).

(** * Proofs *)

Arguments String.append : simpl never.

Ltac unfold_api :=
  cbv [serve signup signin logout verify sendReset resetPassword
       accessCookie refreshCookie sessionCookie
       bind ret Return panic http_Error WriteHeader Write http_SetCookie
       log_Print_Error log_Print record
       DB_QueryRow DB_Query DB_Exec DB_call db_exec
       bcrypt_GenerateFromPassword bcrypt_CompareHashAndPassword
       uuid_New_String GetRandomBase62 time_Now setClaims SendEmail].

(** One decision of the environment or of the table. *)
Ltac branch :=
  match goal with
  | |- context [io_fault ?E ?n] =>
      let f := fresh "fault" in destruct (io_fault E n) as [f|] eqn:?
  | |- context [GenerateFromPassword ?E ?p ?n] =>
      destruct (GenerateFromPassword E p n) eqn:?
  | |- context [CompareHashAndPassword ?E ?h ?p] =>
      destruct (CompareHashAndPassword E h p) eqn:?
  | |- context [sign ?E ?c ?n] => destruct (sign E c n) eqn:?
  | |- context [existsb ?f ?l] => destruct (existsb f l) eqn:?
  | |- context [find ?f ?l] => destruct (find f l) eqn:?
  | |- context [has_password_column ?E] => destruct (has_password_column E) eqn:?
  end; cbn.

Lemma not_options r :
  Method r <> "OPTIONS" -> (Method r =? "OPTIONS")%string = false.
Proof. intros H. now apply String.eqb_neq. Qed.

Lemma nonempty s : s <> "" -> (s =? "")%string = false.
Proof. intros H. now apply String.eqb_neq. Qed.

Lemma existsb_username rows u x :
  In u rows -> username u = x ->
  existsb (fun r => (username r =? x)%string) rows = true.
Proof.
  intros Hin Hu. apply existsb_exists. exists u. split; [assumption|].
  rewrite Hu. apply String.eqb_refl.
Qed.

(** An UPDATE whose condition no row satisfies returns the table as it was. *)
Lemma update_where_none cond f rows :
  existsb cond rows = false -> update_where cond f rows = rows.
Proof.
  unfold update_where. induction rows as [|u rows IH]; cbn; intros H.
  - reflexivity.
  - apply orb_false_iff in H as [Hu Hrows]. rewrite Hu. f_equal. now apply IH.
Qed.

(** An UPDATE is a map over the rows that fixes the rows outside its
    condition. *)
Lemma update_where_frame cond f rows u :
  In u rows -> cond u = false -> In u (update_where cond f rows).
Proof.
  intros Hin Hc. unfold update_where. apply in_map_iff. exists u.
  rewrite Hc. now split.
Qed.

Lemma update_where_hit cond f rows u :
  In u rows -> cond u = true -> In (f u) (update_where cond f rows).
Proof.
  intros Hin Hc. unfold update_where. apply in_map_iff. exists u.
  rewrite Hc. now split.
Qed.


Lemma infix_split {A} (p l : list A) :
  infix p l -> exists pre post, l = (pre ++ p ++ post)%list.
Proof.
  induction 1 as [l|x l _ [pre [post ->]]].
  - now exists [], l.
  - now exists (x :: pre), post.
Qed.

(** ** Signup with a user name that is in use *)

(** C3 (amended).  When the table holds a row with the requested user name,
    [signup] never changes the table, whatever email is sent; when the
    first query (is the name in use?) is answered by the database, the
    reply is 409 Conflict "this username is taken"; and when that query
    fails, the reply is 500 "error checking if username exists". *)
Theorem signup_taken_username E w r u :
  Method r <> "OPTIONS" ->
  In u (users w) ->
  username u = Values_Get (Query r) "username" ->
  users (final (serve (signup E) w r)) = users w /\
  (io_fault E (tick w) = None ->
   outcome (serve (signup E) w r)
   = Replied StatusConflict ("this username is taken" ++ nl) []) /\
  (forall m, io_fault E (tick w) = Some m ->
   outcome (serve (signup E) w r)
   = Replied StatusInternalServerError
             ("error checking if username exists" ++ nl) []).
Proof.
  intros Hm Hin Hu.
  unfold serve, signup. rewrite (not_options r Hm).
  unfold_api. cbn.
  destruct (io_fault E (tick w)) as [m|] eqn:Hf; cbn.
  - split; [reflexivity|]. split; [discriminate | reflexivity].
  - rewrite (existsb_username _ u _ Hin Hu). cbn.
    split; [reflexivity|]. split; [reflexivity | discriminate].
Qed.

Lemma signup_taken_username_witness :
  let E := sampleEnv true steady_clock no_fault in
  let E' := sampleEnv true steady_clock outage in
  let w := mkWorld [bob; alice] 7 in
  let r := signup_alice "other" in
  (Method r <> "OPTIONS" /\ In alice (users w) /\
   username alice = Values_Get (Query r) "username" /\
   io_fault E (tick w) = None /\
   io_fault E' (tick w) = Some "dial tcp: connection refused") /\
  users (final (serve (signup E) w r)) = users w /\
  outcome (serve (signup E) w r)
  = Replied StatusConflict ("this username is taken" ++ nl) [] /\
  users (final (serve (signup E') w r)) = users w /\
  outcome (serve (signup E') w r)
  = Replied StatusInternalServerError
            ("error checking if username exists" ++ nl) [].
Proof.
  intros E E' w r.
  assert (Hm : Method r <> "OPTIONS") by discriminate.
  assert (Hin : In alice (users w)) by (right; left; reflexivity).
  assert (Hu : username alice = Values_Get (Query r) "username") by reflexivity.
  assert (Hf : io_fault E (tick w) = None) by reflexivity.
  assert (Hf' : io_fault E' (tick w) = Some "dial tcp: connection refused")
    by reflexivity.
  destruct (signup_taken_username E w r alice Hm Hin Hu)
    as [Hkeep [Hreply _]].
  destruct (signup_taken_username E' w r alice Hm Hin Hu)
    as [Hkeep' [_ Hfail]].
  split; [repeat split; assumption|].
  split; [exact Hkeep|]. split; [exact (Hreply Hf)|].
  split; [exact Hkeep' | exact (Hfail _ Hf')].
Defined.

(** C3 as stated fails when the database does not answer: the name is in
    use, and the reply is 500, not 409. *)
Lemma outage_hides_conflict :
  let E := sampleEnv true steady_clock outage in
  let w := mkWorld [alice] 0 in
  let r := signup_alice "pw1" in
  In alice (users w) /\
  username alice = Values_Get (Query r) "username" /\
  outcome (serve (signup E) w r)
  = Replied StatusInternalServerError
            ("error checking if username exists" ++ nl) [] /\
  status (outcome (serve (signup E) w r)) <> Some StatusConflict.
Proof.
  cbv zeta. split; [left; reflexivity|]. split; [reflexivity|].
  split; [reflexivity|]. vm_compute. discriminate.
Qed.

(** ** Signin with a wrong password *)

(** C5 (amended).  When the first row with the given email has a hash that
    the password does not verify against, [signin] signs nothing, sets no
    cookie and leaves the table alone; when the lookup of that row is
    answered by the database, the reply is the 500 "incorrect password"
    by which the service reports bad credentials; and when the lookup
    fails, the reply is the 500 "error retrieving information with this
    email", with no password compared. *)
Theorem signin_wrong_password E w r c u :
  Method r <> "OPTIONS" ->
  Body r = Some c ->
  find (fun x => (email x =? Email c)%string) (users w) = Some u ->
  CompareHashAndPassword E (hashedPassword u) (Password c) = false ->
  cookies_of (outcome (serve (signin E) w r)) = [] /\
  (forall cl res, ~ In (EvSign cl res) (calls (serve (signin E) w r))) /\
  users (final (serve (signin E) w r)) = users w /\
  (io_fault E (tick w) = None ->
   outcome (serve (signin E) w r)
   = Replied StatusInternalServerError ("incorrect password" ++ nl) []) /\
  (forall m, io_fault E (tick w) = Some m ->
   outcome (serve (signin E) w r)
   = Replied StatusInternalServerError
             ("error retrieving information with this email" ++ nl) [] /\
   calls (serve (signin E) w r)
   = [EvDb SelectHashedPasswordUserId [ArgString (Email c)] (DbErr m)]).
Proof.
  intros Hm Hb Hfind Hcmp.
  unfold serve, signin. rewrite (not_options r Hm), Hb.
  unfold_api. cbn.
  destruct (io_fault E (tick w)) as [m|] eqn:Hf; cbn.
  - split; [reflexivity|].
    split; [intros cl res [H|[]]; discriminate|].
    split; [reflexivity|]. split; [discriminate|].
    intros m' Hm'. injection Hm' as <-. now split.
  - rewrite Hfind. cbn. rewrite Hcmp. cbn.
    split; [reflexivity|].
    split; [intros cl res [H|[H|[]]]; discriminate|].
    split; [reflexivity|]. split; [reflexivity | discriminate].
Qed.

Lemma signin_wrong_password_witness :
  let E := sampleEnv true steady_clock no_fault in
  let E' := sampleEnv true steady_clock outage in
  let w := mkWorld [bob; alice] 3 in
  let r := signin_alice "wrong" in
  let c := mkCredentials "" "alice@x.com" "wrong" in
  (Method r <> "OPTIONS" /\ Body r = Some c /\
   find (fun x => (email x =? Email c)%string) (users w) = Some alice /\
   CompareHashAndPassword E (hashedPassword alice) (Password c) = false /\
   io_fault E (tick w) = None /\
   io_fault E' (tick w) = Some "dial tcp: connection refused") /\
  cookies_of (outcome (serve (signin E) w r)) = [] /\
  outcome (serve (signin E) w r)
  = Replied StatusInternalServerError ("incorrect password" ++ nl) [] /\
  outcome (serve (signin E') w r)
  = Replied StatusInternalServerError
            ("error retrieving information with this email" ++ nl) [].
Proof.
  intros E E' w r c.
  assert (Hm : Method r <> "OPTIONS") by discriminate.
  assert (Hb : Body r = Some c) by reflexivity.
  assert (Hfind : find (fun x => (email x =? Email c)%string) (users w)
                  = Some alice) by reflexivity.
  assert (Hcmp : CompareHashAndPassword E (hashedPassword alice) (Password c)
                 = false) by reflexivity.
  assert (Hf : io_fault E (tick w) = None) by reflexivity.
  assert (Hf' : io_fault E' (tick w) = Some "dial tcp: connection refused")
    by reflexivity.
  destruct (signin_wrong_password E w r c alice Hm Hb Hfind Hcmp)
    as [Hcookies [_ [_ [Hreply _]]]].
  destruct (signin_wrong_password E' w r c alice Hm Hb Hfind Hcmp)
    as [_ [_ [_ [_ Hfail]]]].
  split; [repeat split; assumption|].
  split; [exact Hcookies|]. split; [exact (Hreply Hf)|].
  exact (proj1 (Hfail _ Hf')).
Defined.

(** C5 as stated fails when the lookup itself fails: the email is that of
    a stored identity, the password is wrong, and the reply is the storage
    failure, with no password compared. *)
Lemma outage_hides_bad_credentials :
  let E := sampleEnv true steady_clock outage in
  let w := mkWorld [alice] 0 in
  let r := signin_alice "wrong" in
  find (fun x => (email x =? "alice@x.com")%string) (users w) = Some alice /\
  CompareHashAndPassword E (hashedPassword alice) "wrong" = false /\
  outcome (serve (signin E) w r)
  = Replied StatusInternalServerError
            ("error retrieving information with this email" ++ nl) [] /\
  outcome (serve (signin E) w r)
  <> Replied StatusInternalServerError ("incorrect password" ++ nl) [].
Proof.
  cbv zeta. repeat split; try reflexivity. vm_compute. discriminate.
Qed.

(** ** Verify *)

(** C2 (what the code does).  Whatever non-empty token is sent, also the
    token stored for an unverified identity, [verify] answers 404 "invalid
    token" and changes no row: the statement is given the whole slice of
    query values, which the argument conversion of database/sql refuses,
    so [Exec] returns a nil result. *)
Theorem verify_never_updates E w r t rest :
  Method r <> "OPTIONS" ->
  Values_index (Query r) "token" = Some (t :: rest) ->
  t <> "" ->
  outcome (serve (verify E) w r)
  = Replied StatusNotFound ("invalid token" ++ nl) [] /\
  users (final (serve (verify E) w r)) = users w.
Proof.
  intros Hm Hq Ht.
  unfold serve, verify. rewrite (not_options r Hm), Hq.
  assert (Hlen : (Z.of_nat (String.length t) <? 1) = false).
  { destruct t as [|a t']; [contradiction|]. cbn [String.length].
    apply Z.ltb_ge. lia. }
  rewrite Hlen. unfold_api. cbn.
  destruct (io_fault E (tick w)) as [m|]; cbn; split; reflexivity.
Qed.

Lemma verify_never_updates_witness :
  let E := sampleEnv true steady_clock no_fault in
  let w := mkWorld [alice] 0 in
  let r := post [("token", ["Ab3dE9"])] None in
  (Method r <> "OPTIONS" /\
   Values_index (Query r) "token" = Some ["Ab3dE9"] /\
   "Ab3dE9" <> "" /\
   In alice (users w) /\ verifiedToken alice = "Ab3dE9" /\
   verified alice = false) /\
  outcome (serve (verify E) w r)
  = Replied StatusNotFound ("invalid token" ++ nl) [] /\
  users (final (serve (verify E) w r)) = [alice].
Proof.
  intros E w r.
  assert (Hm : Method r <> "OPTIONS") by discriminate.
  assert (Hq : Values_index (Query r) "token" = Some ["Ab3dE9"]) by reflexivity.
  assert (Ht : "Ab3dE9" <> "") by discriminate.
  split.
  - repeat split; try assumption; try reflexivity. left; reflexivity.
  - exact (verify_never_updates E w r "Ab3dE9" [] Hm Hq Ht).
Defined.

(** ** Completing a password reset *)

Lemma pair_exists_iff rows name tok :
  existsb (fun r => (username r =? name)%string && opt_eqb (resetToken r) tok) rows
  = true <->
  exists u, In u rows /\ username u = name /\ resetToken u = Some tok.
Proof.
  rewrite existsb_exists. split.
  - intros [u [Hin H]]. apply andb_true_iff in H as [Hn Ht].
    exists u. split; [assumption|]. split; [now apply String.eqb_eq|].
    unfold opt_eqb in Ht. destruct (resetToken u) as [t|]; [|discriminate].
    apply String.eqb_eq in Ht. now subst.
  - intros [u [Hin [Hn Ht]]]. exists u. split; [assumption|].
    rewrite Hn, Ht. cbn. now rewrite !String.eqb_refl.
Qed.

(** A run in which no call errored has no errored call at its head. *)
Ltac no_error H :=
  exfalso; cbn in H;
  repeat match type of H with
         | Forall _ (_ :: _) =>
             let H1 := fresh in
             let H2 := fresh in
             apply Forall_cons_iff in H as [H1 H2]; cbn in H1;
             try discriminate H1; clear H1; rename H2 into H
         end.

(** C4.  With the three fields filled in and no storage or hashing call
    failing, [resetPassword] answers 200 exactly when some row has the
    given user name together with the given token as its reset token.
    When no row does, the request fails (here: the handler panics after
    writing 404, so the client gets no response) and the table is
    untouched, failure of a call or not. *)
Theorem resetPassword_iff_pair E w r c :
  Method r <> "OPTIONS" ->
  Body r = Some c ->
  Username c <> "" -> Email c <> "" -> Password c <> "" ->
  let rep := serve (resetPassword E) w r in
  let matching :=
    exists u, In u (users w) /\ username u = Username c /\
              resetToken u = Some (Values_Get (Query r) "token") in
  (Forall (fun e => errored e = false) (calls rep) ->
   (outcome rep = Replied StatusOK "" [] <-> matching)) /\
  (~ matching ->
   status (outcome rep) <> Some StatusOK /\ users (final rep) = users w).
Proof.
  intros Hm Hb Hu He Hp rep matching. subst rep.
  assert (Hpair := pair_exists_iff (users w) (Username c)
                     (Values_Get (Query r) "token")).
  fold matching in Hpair.
  unfold serve, resetPassword.
  rewrite (not_options r Hm), Hb, (nonempty _ Hu), (nonempty _ He), (nonempty _ Hp).
  unfold_api. cbn.
  branch.
  - split; [intros H; no_error H|]. intros _. split; [discriminate|reflexivity].
  - branch.
    + assert (HM : matching) by (apply Hpair; reflexivity).
      split; [|intros Hn; contradiction].
      branch; [|intros H; no_error H].
      branch; [intros H; no_error H|].
      branch; [|intros H; no_error H].
      intros _. split; [intros _; exact HM | reflexivity].
    + assert (HM : ~ matching) by (intros H; apply Hpair in H; discriminate).
      split.
      * intros _. split; [discriminate | intros H; contradiction].
      * intros _. split; [discriminate | reflexivity].
Qed.

Lemma resetPassword_iff_pair_witness :
  let E := sampleEnv true steady_clock no_fault in
  let w := mkWorld [alice; bob] 0 in
  let r := post [("token", ["Zz91qP"])]
                (Some (mkCredentials "bob" "bob@x.com" "fresh")) in
  let c := mkCredentials "bob" "bob@x.com" "fresh" in
  (Method r <> "OPTIONS" /\ Body r = Some c /\
   Username c <> "" /\ Email c <> "" /\ Password c <> "" /\
   Forall (fun e => errored e = false) (calls (serve (resetPassword E) w r))) /\
  outcome (serve (resetPassword E) w r) = Replied StatusOK "" [].
Proof.
  intros E w r c.
  assert (Hm : Method r <> "OPTIONS") by discriminate.
  assert (Hb : Body r = Some c) by reflexivity.
  assert (Hu : Username c <> "") by discriminate.
  assert (He : Email c <> "") by discriminate.
  assert (Hp : Password c <> "") by discriminate.
  assert (Hok : Forall (fun e => errored e = false)
                       (calls (serve (resetPassword E) w r))).
  { vm_compute. repeat constructor. }
  split; [repeat split; assumption|].
  destruct (resetPassword_iff_pair E w r c Hm Hb Hu He Hp) as [Hiff _].
  apply (Hiff Hok). exists bob.
  split; [right; left; reflexivity|]. split; reflexivity.
Defined.



(** ** Requesting a password reset *)

(** What one run of [sendReset] does when no call fails. *)
Lemma sendReset_ok E w r c :
  Method r <> "OPTIONS" ->
  Body r = Some c ->
  Email c <> "" ->
  Forall (fun e => errored e = false) (calls (serve (sendReset E) w r)) ->
  outcome (serve (sendReset E) w r) = Replied StatusOK "" [] /\
  users (final (serve (sendReset E) w r))
  = update_where (fun u => (email u =? Email c)%string)
                 (set_resetToken (RandomBase62 E resetTokenSize (tick w)))
                 (users w).
Proof.
  intros Hm Hb He. unfold serve, sendReset.
  rewrite (not_options r Hm), Hb, (nonempty _ He).
  unfold_api. cbn.
  branch; [intros H; no_error H|].
  branch; [intros H; no_error H|].
  intros _. split; reflexivity.
Qed.

(** C9.  For a non-empty email and runs without a storage or mail failure,
    [sendReset] gives the same reply, an empty 200, on any two tables,
    whether they hold the email or not; on a table without it the UPDATE
    changes nothing. *)
Theorem sendReset_hides_existence E w1 w2 r c :
  Method r <> "OPTIONS" ->
  Body r = Some c ->
  Email c <> "" ->
  Forall (fun e => errored e = false) (calls (serve (sendReset E) w1 r)) ->
  Forall (fun e => errored e = false) (calls (serve (sendReset E) w2 r)) ->
  outcome (serve (sendReset E) w1 r) = Replied StatusOK "" [] /\
  outcome (serve (sendReset E) w2 r) = outcome (serve (sendReset E) w1 r) /\
  ((forall u, In u (users w2) -> email u <> Email c) ->
   users (final (serve (sendReset E) w2 r)) = users w2).
Proof.
  intros Hm Hb He H1 H2.
  destruct (sendReset_ok E w1 r c Hm Hb He H1) as [Ho1 _].
  destruct (sendReset_ok E w2 r c Hm Hb He H2) as [Ho2 Hrows].
  split; [exact Ho1|]. split; [now rewrite Ho1, Ho2|].
  intros Hnone. rewrite Hrows. apply update_where_none.
  destruct (existsb _ (users w2)) eqn:Hex; [|reflexivity].
  apply existsb_exists in Hex as [u [Hin Hu]].
  apply String.eqb_eq in Hu. now destruct (Hnone u Hin).
Qed.

Lemma sendReset_hides_existence_witness :
  let E := sampleEnv true steady_clock no_fault in
  let w1 := mkWorld [alice; bob] 4 in
  let w2 := mkWorld [bob] 9 in
  let c := mkCredentials "" "alice@x.com" "" in
  let r := post [] (Some c) in
  (Method r <> "OPTIONS" /\ Body r = Some c /\ Email c <> "" /\
   Forall (fun e => errored e = false) (calls (serve (sendReset E) w1 r)) /\
   Forall (fun e => errored e = false) (calls (serve (sendReset E) w2 r)) /\
   (forall u, In u (users w2) -> email u <> Email c)) /\
  outcome (serve (sendReset E) w2 r) = outcome (serve (sendReset E) w1 r) /\
  users (final (serve (sendReset E) w2 r)) = users w2.
Proof.
  intros E w1 w2 c r.
  assert (Hm : Method r <> "OPTIONS") by discriminate.
  assert (Hb : Body r = Some c) by reflexivity.
  assert (He : Email c <> "") by discriminate.
  assert (H1 : Forall (fun e => errored e = false)
                      (calls (serve (sendReset E) w1 r))).
  { vm_compute. repeat constructor. }
  assert (H2 : Forall (fun e => errored e = false)
                      (calls (serve (sendReset E) w2 r))).
  { vm_compute. repeat constructor. }
  assert (Hnone : forall u, In u (users w2) -> email u <> Email c).
  { intros u [<-|[]]. discriminate. }
  split; [repeat split; assumption|].
  destruct (sendReset_hides_existence E w1 w2 r c Hm Hb He H1 H2)
    as [_ [Hsame Hnoop]].
  split; [exact Hsame | exact (Hnoop Hnone)].
Defined.

(** ** Order of the steps of a signup *)




(** ** Claims of the session tokens *)

Definition claims_from (E : Env) (uid : string) (now1 now2 : Time)
  (c : AuthClaims) : Prop :=
  (Subject c = "access" \/ Subject c = "refresh") /\
  UserID c = uid /\
  Issuer c = defaultJWTIssuer E /\
  IssuedAt c = Unix now2 /\
  ExpiresAt c = Unix (Add now1 (expiry_of E (Subject c))).

Lemma infix_block {A} (a b c : A) l : infix [a; b; c] (a :: b :: c :: l).
Proof. exact (infix_here [a; b; c] l). Qed.

Ltac find_block :=
  repeat first [apply infix_block | apply infix_later].

Ltac find_member :=
  repeat first [left; reflexivity | right].

Ltac claims_ok :=
  unfold claims_from; cbn;
  repeat split; try reflexivity; first [left; reflexivity | right; reflexivity].

Lemma signup_claims E w r c res :
  In (EvSign c res) (calls (serve (signup E) w r)) ->
  exists now1 now2 u,
    infix [EvNow now1; EvNow now2; EvSign c res] (calls (serve (signup E) w r)) /\
    users (final (serve (signup E) w r)) = (users w ++ [u])%list /\
    username u = Values_Get (Query r) "username" /\
    claims_from E (userId u) now1 now2 c.
Proof.
  unfold serve, signup. destruct (Method r =? "OPTIONS")%string.
  - cbn. intros [].
  - unfold_api. cbn.
    repeat branch;
      intros Hin;
      repeat (destruct Hin as [Hin|Hin]; [try discriminate Hin|]);
      try contradiction;
      injection Hin as <- <-;
      do 3 eexists;
      (split; [find_block|]);
      (split; [reflexivity|]);
      (split; [reflexivity | claims_ok]).
Qed.

Lemma signin_claims E w r c res :
  In (EvSign c res) (calls (serve (signin E) w r)) ->
  exists now1 now2 u cr,
    infix [EvNow now1; EvNow now2; EvSign c res] (calls (serve (signin E) w r)) /\
    Body r = Some cr /\
    find (fun x => (email x =? Email cr)%string) (users w) = Some u /\
    claims_from E (userId u) now1 now2 c.
Proof.
  unfold serve, signin. destruct (Method r =? "OPTIONS")%string.
  - cbn. intros [].
  - destruct (Body r) as [cr|]; [|cbn; intros []].
    unfold_api. cbn.
    destruct (io_fault E (tick w)); cbn.
    + intros [Hin|[]]. discriminate Hin.
    + destruct (find _ (users w)) as [u|] eqn:Hfind; cbn.
      * repeat branch;
          intros Hin;
          repeat (destruct Hin as [Hin|Hin]; [try discriminate Hin|]);
          try contradiction;
          injection Hin as <- <-;
          do 4 eexists;
          (split; [find_block|]);
          (split; [reflexivity|]);
          (split; [exact Hfind | claims_ok]).
      * intros [Hin|[]]. discriminate Hin.
Qed.

(** Every cookie of a reply carries a token that [setClaims] returned in
    the same run. *)
Lemma signup_cookie_signed E w r k :
  In k (cookies_of (outcome (serve (signup E) w r))) ->
  exists c, In (EvSign c (Some (Value k))) (calls (serve (signup E) w r)).
Proof.
  unfold serve, signup. destruct (Method r =? "OPTIONS")%string.
  - cbn. intros [].
  - unfold_api. cbn.
    repeat branch;
      intros Hin;
      repeat (destruct Hin as [Hin|Hin]; [subst k; eexists; cbn; find_member|]);
      contradiction.
Qed.

Lemma signin_cookie_signed E w r k :
  In k (cookies_of (outcome (serve (signin E) w r))) ->
  exists c, In (EvSign c (Some (Value k))) (calls (serve (signin E) w r)).
Proof.
  unfold serve, signin. destruct (Method r =? "OPTIONS")%string.
  - cbn. intros [].
  - destruct (Body r) as [cr|]; [|cbn; intros []].
    unfold_api. cbn.
    destruct (io_fault E (tick w)); cbn; [intros []|].
    destruct (find _ (users w)) as [u|]; cbn; [|intros []].
    repeat branch;
      intros Hin;
      repeat (destruct Hin as [Hin|Hin]; [subst k; eexists; cbn; find_member|]);
      contradiction.
Qed.

(** C7 (amended).  The token of every cookie set by [signup] or [signin]
    was signed over a claim set whose subject is "access" or "refresh",
    whose user id is that of the row just inserted (signup) or of the first
    row with the email (signin), whose issuer is the fixed one, and whose
    two times come from the two clock readings made just before signing:
    the expiry is the first reading plus the expiry of the subject, the
    issue time is the second reading, both in whole seconds. *)
Theorem session_token_claims E w r :
  (forall k, In k (cookies_of (outcome (serve (signup E) w r))) ->
     exists c now1 now2 u,
       infix [EvNow now1; EvNow now2; EvSign c (Some (Value k))]
             (calls (serve (signup E) w r)) /\
       users (final (serve (signup E) w r)) = (users w ++ [u])%list /\
       username u = Values_Get (Query r) "username" /\
       claims_from E (userId u) now1 now2 c) /\
  (forall k, In k (cookies_of (outcome (serve (signin E) w r))) ->
     exists c now1 now2 u cr,
       infix [EvNow now1; EvNow now2; EvSign c (Some (Value k))]
             (calls (serve (signin E) w r)) /\
       Body r = Some cr /\
       find (fun x => (email x =? Email cr)%string) (users w) = Some u /\
       claims_from E (userId u) now1 now2 c).
Proof.
  split; intros k Hk.
  - destruct (signup_cookie_signed E w r k Hk) as [c Hc].
    destruct (signup_claims E w r c _ Hc) as [now1 [now2 [u H]]].
    now exists c, now1, now2, u.
  - destruct (signin_cookie_signed E w r k Hk) as [c Hc].
    destruct (signin_claims E w r c _ Hc) as [now1 [now2 [u [cr H]]]].
    now exists c, now1, now2, u, cr.
Qed.

Lemma session_token_claims_witness :
  let E := sampleEnv true steady_clock no_fault in
  let w := mkWorld [bob; alice] 0 in
  let r := signin_alice "pw1" in
  let k := mkCookie "refresh_token" "refresh.uuid-a"
                    (Add (clock E 5) (DefaultRefreshJWTExpiry E)) "/" in
  In k (cookies_of (outcome (serve (signin E) w r))) /\
  exists c now1 now2 u cr,
    infix [EvNow now1; EvNow now2; EvSign c (Some (Value k))]
          (calls (serve (signin E) w r)) /\
    Body r = Some cr /\
    find (fun x => (email x =? Email cr)%string) (users w) = Some u /\
    claims_from E (userId u) now1 now2 c.
Proof.
  intros E w r k.
  assert (Hk : In k (cookies_of (outcome (serve (signin E) w r))))
    by (vm_compute; right; left; reflexivity).
  split; [exact Hk|].
  destruct (session_token_claims E w r) as [_ Hsignin].
  exact (Hsignin k Hk).
Defined.

(** When the two readings agree, the claim set is the one of a single
    instant of issue. *)
Lemma claims_from_one_instant E uid now c :
  claims_from E uid now now c ->
  exists t, IssuedAt c = Unix t /\
            ExpiresAt c = Unix (Add t (expiry_of E (Subject c))).
Proof. intros [_ [_ [_ [Hi He]]]]. now exists now. Qed.

(** C7 as stated fails when the clock moves to the next second between the
    two readings: the access token of this signin has no instant [t] with
    issued-at [Unix t] and expires-at [Unix (t + expiry)]. *)
Lemma clock_moves_between_readings :
  let E := sampleEnv true ticking_clock no_fault in
  let rep := serve (signin E) (mkWorld [alice] 0) (signin_alice "pw1") in
  exists k c,
    In k (cookies_of (outcome rep)) /\
    In (EvSign c (Some (Value k))) (calls rep) /\
    Subject c = "access" /\
    ~ exists t, IssuedAt c = Unix t /\
                ExpiresAt c = Unix (Add t (DefaultAccessJWTExpiry E)).
Proof.
  cbv zeta.
  exists (mkCookie "access_token" "access.uuid-a" ((1700000002 + 900) * Second) "/").
  exists (mkAuthClaims "uuid-a" "access" 1700000902 "bearchat" 1700000003).
  split; [vm_compute; left; reflexivity|].
  split; [vm_compute; do 4 right; left; reflexivity|].
  split; [reflexivity|].
  intros [t [Hi He]]. cbn in Hi, He. unfold Unix, Add, Second in Hi, He.
  pose proof (Z.div_add t 900 1000000000) as Hdiv.
  replace (t + 900 * 1000000000) with (t + 900000000000) in Hdiv by lia.
  rewrite Hdiv in He by lia. lia.
Qed.

(** ** Logout *)

(** One [logout]: a single clock reading, two cookies, nothing else. *)
Lemma logout_reply E w r :
  Method r <> "OPTIONS" ->
  serve (logout E) w r
  = mkReply (mkWorld (users w) (S (tick w)))
      [EvNow (clock E (tick w))]
      (Replied StatusOK ""
         [mkCookie "access_token" ""
                   (clock E (tick w) - DefaultAccessJWTExpiry E) "";
          mkCookie "refresh_token" ""
                   (clock E (tick w) - DefaultRefreshJWTExpiry E) ""]).
Proof.
  intros Hm. unfold serve, logout. rewrite (not_options r Hm).
  unfold_api. reflexivity.
Qed.

(** C8.  With positive expiries, [logout] on any table and any request
    answers 200 with the two cookies "access_token" and "refresh_token",
    empty, expiring at the clock reading minus the access and the refresh
    expiry, so strictly before that reading; the table is unchanged.  A
    second logout leaves the table of the first, and answers with the same
    status, names and empty values, again expired at its own reading. *)
Theorem logout_expires_cookies E w r :
  Method r <> "OPTIONS" ->
  0 < DefaultAccessJWTExpiry E ->
  0 < DefaultRefreshJWTExpiry E ->
  let rep := serve (logout E) w r in
  let now := clock E (tick w) in
  let rep2 := serve (logout E) (final rep) r in
  let now2 := clock E (tick (final rep)) in
  outcome rep
  = Replied StatusOK ""
      [mkCookie "access_token" "" (now - DefaultAccessJWTExpiry E) "";
       mkCookie "refresh_token" "" (now - DefaultRefreshJWTExpiry E) ""] /\
  Forall (fun k => Expires k < now) (cookies_of (outcome rep)) /\
  users (final rep) = users w /\
  users (final rep2) = users (final rep) /\
  status (outcome rep2) = status (outcome rep) /\
  map (fun k => (Name k, Value k)) (cookies_of (outcome rep2))
  = map (fun k => (Name k, Value k)) (cookies_of (outcome rep)) /\
  Forall (fun k => Expires k < now2) (cookies_of (outcome rep2)).
Proof.
  intros Hm Ha Hr rep now rep2 now2.
  assert (Hrep : rep = serve (logout E) w r) by reflexivity.
  assert (Hrep2 : rep2 = serve (logout E) (final rep) r) by reflexivity.
  rewrite logout_reply in Hrep, Hrep2 by exact Hm.
  assert (Hnow2 : now2 = clock E (S (tick w))) by (subst now2; now rewrite Hrep).
  rewrite Hrep2, Hnow2. rewrite Hrep. cbn. fold now.
  repeat match goal with |- _ /\ _ => split end; try reflexivity;
    repeat constructor; cbn; lia.
Qed.

Lemma logout_expires_cookies_witness :
  let E := sampleEnv true steady_clock no_fault in
  let w := mkWorld [alice; bob] 5 in
  let r := post [] None in
  (Method r <> "OPTIONS" /\ 0 < DefaultAccessJWTExpiry E /\
   0 < DefaultRefreshJWTExpiry E) /\
  Forall (fun k => Expires k < clock E (tick w))
         (cookies_of (outcome (serve (logout E) w r))) /\
  users (final (serve (logout E) w r)) = users w.
Proof.
  intros E w r.
  assert (Hm : Method r <> "OPTIONS") by discriminate.
  assert (Ha : 0 < DefaultAccessJWTExpiry E) by reflexivity.
  assert (Hr : 0 < DefaultRefreshJWTExpiry E) by reflexivity.
  split; [repeat split; assumption|].
  destruct (logout_expires_cookies E w r Hm Ha Hr) as [_ [Hpast [Hrows _]]].
  split; [exact Hpast | exact Hrows].
Defined.

(** ** The scenario: signup, reset, signin *)

Lemma login_view_update cond t p rows :
  map login_view (update_where cond (set_resetToken_password t p) rows)
  = map login_view rows.
Proof.
  unfold update_where. rewrite map_map. apply map_ext.
  intros u. now destruct (cond u).
Qed.

(** No run of [resetPassword] changes what [signin] reads: the emails, the
    [hashedPassword] column and the user ids are those of before. *)
Lemma resetPassword_keeps_login_view E w r :
  map login_view (users (final (serve (resetPassword E) w r)))
  = map login_view (users w).
Proof.
  unfold serve, resetPassword.
  destruct (Method r =? "OPTIONS")%string; [reflexivity|].
  destruct (Body r) as [c|]; [|reflexivity].
  destruct (Username c =? "")%string; [reflexivity|].
  destruct (Email c =? "")%string; [reflexivity|].
  destruct (Password c =? "")%string; [reflexivity|].
  unfold_api. cbn.
  repeat branch; try reflexivity; apply login_view_update.
Qed.

(** With a string for the token, an UPDATE that matches no row still
    returns a result: [Exec] gives a nil result only together with an
    error. *)
Lemma update_verified_result column t rows :
  exec_result (fst (db_exec column UpdateVerified [ArgInt 1; ArgString t] rows))
  = Some (count_where (fun u => (verifiedToken u =? t)%string) rows).
Proof. reflexivity. Qed.

(** C1 (what the code does).  [resetPassword] writes the new hash to the
    column [password], while [signup] stores and [signin] reads
    [hashedPassword].  So in the scenario, on a table that has a
    [password] column, the reset answers 200 and afterwards the old
    password still signs in while the new one is refused; on a table
    without that column the reset itself answers 400 and the passwords
    stay as they were. *)
Theorem scenario_old_password_survives :
  (forall E w r,
     map login_view (users (final (serve (resetPassword E) w r)))
     = map login_view (users w)) /\
  (let outs := scenario (sampleEnv true steady_clock no_fault) in
   map status outs
   = [Some StatusCreated; Some StatusOK; Some StatusInternalServerError;
      Some StatusOK; Some StatusOK; Some StatusOK;
      Some StatusInternalServerError] /\
   nth 4 outs Aborted = Replied StatusOK "" [] /\
   map Name (cookies_of (nth 5 outs Aborted)) = ["access_token"; "refresh_token"] /\
   nth 6 outs Aborted
   = Replied StatusInternalServerError ("incorrect password" ++ nl) []) /\
  (let outs := scenario (sampleEnv false steady_clock no_fault) in
   nth 4 outs Aborted
   = Replied StatusBadRequest
       ("Error 1054: Unknown column 'password' in 'field list'" ++ nl) [] /\
   map Name (cookies_of (nth 5 outs Aborted)) = ["access_token"; "refresh_token"] /\
   nth 6 outs Aborted
   = Replied StatusInternalServerError ("incorrect password" ++ nl) []).
Proof.
  split; [exact resetPassword_keeps_login_view|].
  split; vm_compute; repeat split.
Qed.

(** * Further properties of the handlers *)

(** ** Rows and lists *)

Lemma existsb_none (f : User -> string) x rows :
  existsb (fun r => (f r =? x)%string) rows = false <->
  forall u, In u rows -> f u <> x.
Proof.
  split.
  - intros H u Hin Hu.
    assert (Ht : existsb (fun r => (f r =? x)%string) rows = true).
    { apply existsb_exists. exists u. split; [assumption|].
      now apply String.eqb_eq. }
    rewrite H in Ht. discriminate.
  - intros H. destruct (existsb _ rows) eqn:Hex; [|reflexivity].
    apply existsb_exists in Hex as [u [Hin Hu]].
    apply String.eqb_eq in Hu. now destruct (H u Hin).
Qed.

Lemma find_snoc (f : User -> string) x rows u :
  existsb (fun r => (f r =? x)%string) rows = false ->
  f u = x ->
  find (fun r => (f r =? x)%string) (rows ++ [u])%list = Some u.
Proof.
  intros Hnone Hu. induction rows as [|a rows IH]; cbn.
  - now rewrite Hu, String.eqb_refl.
  - cbn in Hnone. apply orb_false_iff in Hnone as [Ha Hrows].
    rewrite Ha. now apply IH.
Qed.

Lemma frozen_view_resetToken cond t rows :
  map frozen_view (update_where cond (set_resetToken t) rows)
  = map frozen_view rows.
Proof.
  unfold update_where. rewrite map_map. apply map_ext.
  intros u. now destruct (cond u).
Qed.

Lemma frozen_view_resetToken_password cond t p rows :
  map frozen_view (update_where cond (set_resetToken_password t p) rows)
  = map frozen_view rows.
Proof.
  unfold update_where. rewrite map_map. apply map_ext.
  intros u. now destruct (cond u).
Qed.

Lemma frozen_view_names rows rows' :
  map frozen_view rows' = map frozen_view rows ->
  map username rows' = map username rows /\ map email rows' = map email rows.
Proof.
  intros H.
  assert (Hn : forall l, map username l
                         = map (fun v => fst (fst (fst (fst (fst v)))))
                               (map frozen_view l))
    by (intros l; rewrite map_map; reflexivity).
  assert (He : forall l, map email l
                         = map (fun v => snd (fst (fst (fst (fst v)))))
                               (map frozen_view l))
    by (intros l; rewrite map_map; reflexivity).
  now rewrite (Hn rows'), (Hn rows), (He rows'), (He rows), H.
Qed.

(** Leaves of a run under the assumption that no call failed. *)
Ltac clean_run tac :=
  repeat branch;
  let H := fresh "Hclean" in
  intros H; first [solve [no_error H] | tac].

(** ** Signup *)

(** A POST to [signup] is answered 201 exactly when none of its calls
    failed. *)
Lemma signup_status_created E w r :
  Method r <> "OPTIONS" ->
  status (outcome (serve (signup E) w r)) = Some StatusCreated <->
  Forall (fun e => step_failed e = false) (calls (serve (signup E) w r)).
Proof.
  intros Hm. unfold serve, signup. rewrite (not_options r Hm).
  unfold_api. cbn.
  repeat branch;
    (split; intros H;
     [try discriminate H; repeat constructor
     | first [solve [no_error H] | reflexivity]]).
Qed.

(** The run of a signup in which no call failed. *)
Lemma signup_created E w r :
  Method r <> "OPTIONS" ->
  Forall (fun e => step_failed e = false) (calls (serve (signup E) w r)) ->
  let name := Values_Get (Query r) "username" in
  let mail := Values_Get (Query r) "email" in
  let pw := Values_Get (Query r) "password" in
  let n := tick w in
  let token := RandomBase62 E verifyTokenSize (5 + n) in
  exists hashed access refresh,
    GenerateFromPassword E pw (2 + n) = Some hashed /\
    CompareHashAndPassword E hashed pw = true /\
    existsb (fun u => (username u =? name)%string) (users w) = false /\
    existsb (fun u => (email u =? mail)%string) (users w) = false /\
    users (final (serve (signup E) w r))
    = (users w ++ [mkUser name mail hashed false None token
                          (uuid_New E (4 + n)) None])%list /\
    outcome (serve (signup E) w r)
    = Replied StatusCreated ""
        [mkCookie "access_token" access
                  (Add (clock E (7 + n)) (DefaultAccessJWTExpiry E)) "/";
         mkCookie "refresh_token" refresh
                  (Add (clock E (10 + n)) (DefaultRefreshJWTExpiry E)) "/"] /\
    In (EvMail mail "Email Verification" "user-signup.html" token None)
       (calls (serve (signup E) w r)).
Proof.
  intros Hm. cbv zeta. unfold serve, signup. rewrite (not_options r Hm).
  unfold_api. cbn.
  clean_run ltac:(try (exfalso; congruence); repeat match goal with
                         | H : Some _ = Some _ |- _ => injection H as <-
                         end;
                  do 3 eexists; repeat split; try reflexivity;
                  try assumption; find_member).
Qed.

(** X1.  A POST to [signup] is answered 201 exactly when no step failed;
    then the table has gained one row: the requested name and email, the
    hash (which verifies against the password), [verified = false], no
    reset token, and the verification token that is mailed to the email;
    and the reply carries the access and the refresh cookie, each expiring
    one expiry after the clock reading made for it. *)
Theorem signup_created_iff E w r :
  Method r <> "OPTIONS" ->
  (status (outcome (serve (signup E) w r)) = Some StatusCreated <->
   Forall (fun e => step_failed e = false) (calls (serve (signup E) w r))) /\
  (Forall (fun e => step_failed e = false) (calls (serve (signup E) w r)) ->
   exists hashed access refresh,
     users (final (serve (signup E) w r))
     = (users w ++ [mkUser (Values_Get (Query r) "username")
                           (Values_Get (Query r) "email") hashed false None
                           (RandomBase62 E verifyTokenSize (5 + tick w))
                           (uuid_New E (4 + tick w)) None])%list /\
     CompareHashAndPassword E hashed (Values_Get (Query r) "password") = true /\
     outcome (serve (signup E) w r)
     = Replied StatusCreated ""
         [mkCookie "access_token" access
                   (Add (clock E (7 + tick w)) (DefaultAccessJWTExpiry E)) "/";
          mkCookie "refresh_token" refresh
                   (Add (clock E (10 + tick w)) (DefaultRefreshJWTExpiry E)) "/"] /\
     In (EvMail (Values_Get (Query r) "email") "Email Verification"
                "user-signup.html"
                (RandomBase62 E verifyTokenSize (5 + tick w)) None)
        (calls (serve (signup E) w r))).
Proof.
  intros Hm. split; [exact (signup_status_created E w r Hm)|].
  intros Hclean.
  destruct (signup_created E w r Hm Hclean)
    as [hashed [access [refresh [_ [Hcmp [_ [_ [Hrows [Hout Hmail]]]]]]]]].
  now exists hashed, access, refresh.
Qed.

Lemma signup_created_iff_witness :
  let E := sampleEnv true steady_clock no_fault in
  let w := mkWorld [bob] 0 in
  let r := signup_alice "pw1" in
  (Method r <> "OPTIONS" /\
   Forall (fun e => step_failed e = false) (calls (serve (signup E) w r))) /\
  status (outcome (serve (signup E) w r)) = Some StatusCreated /\
  exists hashed,
    users (final (serve (signup E) w r))
    = [bob; mkUser "alice" "alice@x.com" hashed false None "Tok105" "uuid-4" None].
Proof.
  intros E w r.
  assert (Hm : Method r <> "OPTIONS") by discriminate.
  assert (Hok : Forall (fun e => step_failed e = false)
                       (calls (serve (signup E) w r))).
  { vm_compute. repeat constructor. }
  split; [now split|].
  destruct (signup_created_iff E w r Hm) as [Hiff Hrun].
  split; [now apply Hiff|].
  destruct (Hrun Hok) as [hashed [_ [_ [Hrows _]]]].
  exists hashed. exact Hrows.
Defined.

(** X2.  When the user name is free but a row has the requested email,
    and the two existence queries are answered, [signup] replies 409 "this
    email is taken" after exactly those two steps and leaves the table
    unchanged. *)
Theorem signup_taken_email E w r u :
  Method r <> "OPTIONS" ->
  (forall x, In x (users w) -> username x <> Values_Get (Query r) "username") ->
  In u (users w) ->
  email u = Values_Get (Query r) "email" ->
  io_fault E (tick w) = None ->
  io_fault E (S (tick w)) = None ->
  outcome (serve (signup E) w r)
  = Replied StatusConflict ("this email is taken" ++ nl) [] /\
  users (final (serve (signup E) w r)) = users w /\
  steps (calls (serve (signup E) w r)) = [CheckUsername; CheckEmail].
Proof.
  intros Hm Hfree Hin Hu Hf0 Hf1.
  apply (existsb_none username) in Hfree.
  assert (Hmail : existsb (fun x => (email x =? Values_Get (Query r) "email")%string)
                          (users w) = true).
  { apply existsb_exists. exists u. split; [assumption|].
    now apply String.eqb_eq. }
  unfold serve, signup. rewrite (not_options r Hm).
  unfold_api. cbn. rewrite Hf0. cbn. rewrite Hfree. cbn.
  rewrite Hf1. cbn. rewrite Hmail. cbn. repeat split.
Qed.

Lemma signup_taken_email_witness :
  let E := sampleEnv true steady_clock no_fault in
  let w := mkWorld [alice] 0 in
  let r := post [("username", ["alicia"]); ("email", ["alice@x.com"]);
                 ("password", ["pw"])] None in
  (Method r <> "OPTIONS" /\
   (forall x, In x (users w) -> username x <> Values_Get (Query r) "username") /\
   In alice (users w) /\ email alice = Values_Get (Query r) "email" /\
   io_fault E (tick w) = None /\ io_fault E (S (tick w)) = None) /\
  outcome (serve (signup E) w r)
  = Replied StatusConflict ("this email is taken" ++ nl) [] /\
  users (final (serve (signup E) w r)) = users w.
Proof.
  intros E w r.
  assert (Hm : Method r <> "OPTIONS") by discriminate.
  assert (Hfree : forall x, In x (users w) ->
                            username x <> Values_Get (Query r) "username").
  { intros x [<-|[]]. discriminate. }
  assert (Hin : In alice (users w)) by (left; reflexivity).
  assert (Hu : email alice = Values_Get (Query r) "email") by reflexivity.
  assert (Hf0 : io_fault E (tick w) = None) by reflexivity.
  assert (Hf1 : io_fault E (S (tick w)) = None) by reflexivity.
  split; [repeat split; assumption|].
  destruct (signup_taken_email E w r alice Hm Hfree Hin Hu Hf0 Hf1)
    as [Hout [Hrows _]].
  now split.
Defined.

(** X3.  The insert of [signup] is not undone: when the verification mail
    fails, the reply is 500 "error sending verification email", yet the
    new row, holding the token that was to be mailed, is in the table and
    the reply still carries both session cookies. *)
Theorem signup_mail_failure E w r to subject template token msg :
  In (EvMail to subject template token (Some msg))
     (calls (serve (signup E) w r)) ->
  exists u access refresh,
    users (final (serve (signup E) w r)) = (users w ++ [u])%list /\
    username u = Values_Get (Query r) "username" /\
    email u = to /\ verifiedToken u = token /\
    outcome (serve (signup E) w r)
    = Replied StatusInternalServerError
        ("error sending verification email" ++ nl)
        [mkCookie "access_token" access
                  (Add (clock E (7 + tick w)) (DefaultAccessJWTExpiry E)) "/";
         mkCookie "refresh_token" refresh
                  (Add (clock E (10 + tick w)) (DefaultRefreshJWTExpiry E)) "/"].
Proof.
  unfold serve, signup. destruct (Method r =? "OPTIONS")%string.
  - cbn. intros [].
  - unfold_api. cbn.
    repeat branch;
      intros Hin;
      repeat (destruct Hin as [Hin|Hin]; [try discriminate Hin|]);
      try contradiction;
      injection Hin as <- <- <- <- <-;
      do 3 eexists; repeat split.
Qed.

Lemma signup_mail_failure_witness :
  let E := sampleEnv true steady_clock
             (fun n => if (13 <=? n)%nat then outage n else None) in
  let w := mkWorld [] 0 in
  let r := signup_alice "pw1" in
  In (EvMail "alice@x.com" "Email Verification" "user-signup.html" "Tok105"
             (Some "dial tcp: connection refused"))
     (calls (serve (signup E) w r)) /\
  exists u access refresh,
    users (final (serve (signup E) w r)) = (users w ++ [u])%list /\
    username u = Values_Get (Query r) "username" /\
    email u = "alice@x.com" /\ verifiedToken u = "Tok105" /\
    outcome (serve (signup E) w r)
    = Replied StatusInternalServerError
        ("error sending verification email" ++ nl)
        [mkCookie "access_token" access
                  (Add (clock E (7 + tick w)) (DefaultAccessJWTExpiry E)) "/";
         mkCookie "refresh_token" refresh
                  (Add (clock E (10 + tick w)) (DefaultRefreshJWTExpiry E)) "/"].
Proof.
  intros E w r.
  assert (Hin : In (EvMail "alice@x.com" "Email Verification"
                           "user-signup.html" "Tok105"
                           (Some "dial tcp: connection refused"))
                   (calls (serve (signup E) w r))).
  { vm_compute. find_member. }
  split; [exact Hin|].
  exact (signup_mail_failure E w r _ _ _ _ _ Hin).
Defined.

(** ** Signin *)

(** The run of a signin with the right password in which no call failed. *)
Lemma signin_accepts E w r c u :
  Method r <> "OPTIONS" ->
  Body r = Some c ->
  find (fun x => (email x =? Email c)%string) (users w) = Some u ->
  CompareHashAndPassword E (hashedPassword u) (Password c) = true ->
  Forall (fun e => errored e = false) (calls (serve (signin E) w r)) ->
  exists access refresh,
    outcome (serve (signin E) w r)
    = Replied StatusOK ""
        [mkCookie "access_token" access
                  (Add (clock E (2 + tick w)) (DefaultAccessJWTExpiry E)) "/";
         mkCookie "refresh_token" refresh
                  (Add (clock E (5 + tick w)) (DefaultRefreshJWTExpiry E)) "/"] /\
    In (EvSign (mkAuthClaims (userId u) "access"
                  (Unix (Add (clock E (2 + tick w)) (DefaultAccessJWTExpiry E)))
                  (defaultJWTIssuer E) (Unix (clock E (3 + tick w))))
               (Some access))
       (calls (serve (signin E) w r)) /\
    In (EvSign (mkAuthClaims (userId u) "refresh"
                  (Unix (Add (clock E (5 + tick w)) (DefaultRefreshJWTExpiry E)))
                  (defaultJWTIssuer E) (Unix (clock E (6 + tick w))))
               (Some refresh))
       (calls (serve (signin E) w r)) /\
    users (final (serve (signin E) w r)) = users w.
Proof.
  intros Hm Hb Hfind Hcmp.
  unfold serve, signin. rewrite (not_options r Hm), Hb.
  unfold_api. cbn.
  branch; [intros H; no_error H|].
  rewrite Hfind. cbn. rewrite Hcmp. cbn.
  clean_run ltac:(do 2 eexists; repeat split; find_member).
Qed.

(** X4.  With the password that verifies against the hash of the first
    row with the email, and no call failing, [signin] replies 200 with the
    access and the refresh cookie (path "/", expiring one expiry after the
    clock reading made for it), each holding the token signed for that
    row's user id; the table is unchanged. *)
Theorem signin_success E w r c u :
  Method r <> "OPTIONS" ->
  Body r = Some c ->
  find (fun x => (email x =? Email c)%string) (users w) = Some u ->
  CompareHashAndPassword E (hashedPassword u) (Password c) = true ->
  Forall (fun e => errored e = false) (calls (serve (signin E) w r)) ->
  exists access refresh,
    outcome (serve (signin E) w r)
    = Replied StatusOK ""
        [mkCookie "access_token" access
                  (Add (clock E (2 + tick w)) (DefaultAccessJWTExpiry E)) "/";
         mkCookie "refresh_token" refresh
                  (Add (clock E (5 + tick w)) (DefaultRefreshJWTExpiry E)) "/"] /\
    In (EvSign (mkAuthClaims (userId u) "access"
                  (Unix (Add (clock E (2 + tick w)) (DefaultAccessJWTExpiry E)))
                  (defaultJWTIssuer E) (Unix (clock E (3 + tick w))))
               (Some access))
       (calls (serve (signin E) w r)) /\
    In (EvSign (mkAuthClaims (userId u) "refresh"
                  (Unix (Add (clock E (5 + tick w)) (DefaultRefreshJWTExpiry E)))
                  (defaultJWTIssuer E) (Unix (clock E (6 + tick w))))
               (Some refresh))
       (calls (serve (signin E) w r)) /\
    users (final (serve (signin E) w r)) = users w.
Proof. exact (signin_accepts E w r c u). Qed.

Lemma signin_success_witness :
  let E := sampleEnv true steady_clock no_fault in
  let w := mkWorld [bob; alice] 0 in
  let r := signin_alice "pw1" in
  let c := mkCredentials "" "alice@x.com" "pw1" in
  (Method r <> "OPTIONS" /\ Body r = Some c /\
   find (fun x => (email x =? Email c)%string) (users w) = Some alice /\
   CompareHashAndPassword E (hashedPassword alice) (Password c) = true /\
   Forall (fun e => errored e = false) (calls (serve (signin E) w r))) /\
  exists access refresh,
    outcome (serve (signin E) w r)
    = Replied StatusOK ""
        [mkCookie "access_token" access
                  (Add (clock E 2) (DefaultAccessJWTExpiry E)) "/";
         mkCookie "refresh_token" refresh
                  (Add (clock E 5) (DefaultRefreshJWTExpiry E)) "/"].
Proof.
  intros E w r c.
  assert (Hm : Method r <> "OPTIONS") by discriminate.
  assert (Hb : Body r = Some c) by reflexivity.
  assert (Hfind : find (fun x => (email x =? Email c)%string) (users w)
                  = Some alice) by reflexivity.
  assert (Hcmp : CompareHashAndPassword E (hashedPassword alice) (Password c)
                 = true) by reflexivity.
  assert (Hok : Forall (fun e => errored e = false)
                       (calls (serve (signin E) w r))).
  { vm_compute. repeat constructor. }
  split; [repeat split; assumption|].
  destruct (signin_success E w r c alice Hm Hb Hfind Hcmp Hok)
    as [access [refresh [Hout _]]].
  exists access, refresh. exact Hout.
Defined.

(** X5.  [signin] sets a cookie only after the password has verified
    against the stored hash: a reply with any cookie comes from a request
    whose body decoded, whose email has a row, and whose password passes
    the comparison with the hash of the first such row. *)
Theorem signin_sound E w r :
  cookies_of (outcome (serve (signin E) w r)) <> [] ->
  exists c u,
    Body r = Some c /\
    find (fun x => (email x =? Email c)%string) (users w) = Some u /\
    CompareHashAndPassword E (hashedPassword u) (Password c) = true.
Proof.
  unfold serve, signin. destruct (Method r =? "OPTIONS")%string.
  - cbn. intros H. now destruct H.
  - destruct (Body r) as [c|]; [|cbn; intros H; now destruct H].
    unfold_api. cbn.
    destruct (io_fault E (tick w)); cbn; [intros H; now destruct H|].
    destruct (find _ (users w)) as [u|] eqn:Hfind; cbn;
      [|intros H; now destruct H].
    destruct (CompareHashAndPassword E (hashedPassword u) (Password c)) eqn:Hcmp;
      cbn; [|intros H; now destruct H].
    intros _. exists c, u. repeat split; assumption || reflexivity.
Qed.

Lemma signin_sound_witness :
  let E := sampleEnv true steady_clock no_fault in
  let w := mkWorld [alice] 0 in
  let r := signin_alice "pw1" in
  cookies_of (outcome (serve (signin E) w r)) <> [] /\
  exists c u,
    Body r = Some c /\
    find (fun x => (email x =? Email c)%string) (users w) = Some u /\
    CompareHashAndPassword E (hashedPassword u) (Password c) = true.
Proof.
  intros E w r.
  assert (Hc : cookies_of (outcome (serve (signin E) w r)) <> [])
    by (vm_compute; discriminate).
  split; [exact Hc|]. exact (signin_sound E w r Hc).
Defined.

(** X6.  When no row has the email and the lookup is answered, [signin]
    replies 404 "this email is not associated with an account" after that
    one query: nothing is compared or signed and the table is unchanged. *)
Theorem signin_unknown_email E w r c :
  Method r <> "OPTIONS" ->
  Body r = Some c ->
  (forall u, In u (users w) -> email u <> Email c) ->
  io_fault E (tick w) = None ->
  outcome (serve (signin E) w r)
  = Replied StatusNotFound
      ("this email is not associated with an account" ++ nl) [] /\
  calls (serve (signin E) w r)
  = [EvDb SelectHashedPasswordUserId [ArgString (Email c)] DbNoRows] /\
  users (final (serve (signin E) w r)) = users w.
Proof.
  intros Hm Hb Hnone Hf.
  assert (Hfind : find (fun x => (email x =? Email c)%string) (users w) = None).
  { destruct (find _ (users w)) as [u|] eqn:Hfind; [|reflexivity].
    apply find_some in Hfind as [Hin Hu]. apply String.eqb_eq in Hu.
    now destruct (Hnone u Hin). }
  unfold serve, signin. rewrite (not_options r Hm), Hb.
  unfold_api. cbn. rewrite Hf. cbn. rewrite Hfind. cbn. repeat split.
Qed.

Lemma signin_unknown_email_witness :
  let E := sampleEnv true steady_clock no_fault in
  let w := mkWorld [bob] 0 in
  let r := signin_alice "pw1" in
  let c := mkCredentials "" "alice@x.com" "pw1" in
  (Method r <> "OPTIONS" /\ Body r = Some c /\
   (forall u, In u (users w) -> email u <> Email c) /\
   io_fault E (tick w) = None) /\
  outcome (serve (signin E) w r)
  = Replied StatusNotFound
      ("this email is not associated with an account" ++ nl) [].
Proof.
  intros E w r c.
  assert (Hm : Method r <> "OPTIONS") by discriminate.
  assert (Hb : Body r = Some c) by reflexivity.
  assert (Hnone : forall u, In u (users w) -> email u <> Email c).
  { intros u [<-|[]]. discriminate. }
  assert (Hf : io_fault E (tick w) = None) by reflexivity.
  split; [repeat split; assumption|].
  destruct (signin_unknown_email E w r c Hm Hb Hnone Hf) as [Hout _].
  exact Hout.
Defined.

Lemma find_login_view e rows1 rows2 :
  map login_view rows1 = map login_view rows2 ->
  option_map login_view (find (fun x => (email x =? e)%string) rows1)
  = option_map login_view (find (fun x => (email x =? e)%string) rows2).
Proof.
  revert rows2. induction rows1 as [|a rows1 IH]; intros [|b rows2] H;
    try discriminate; [reflexivity|].
  cbn in H. injection H as He Hh Hi Hrest.
  simpl find. rewrite He. destruct (email b =? e)%string.
  - cbn. unfold login_view. now rewrite He, Hh, Hi.
  - now apply IH.
Qed.

(** X7.  [signin] reads nothing of a row but its email, hash and user id:
    on two tables that agree on these three columns row by row, at the
    same call count, it makes the same calls and gives the same reply. In
    particular it does not look at [verified]. *)
Theorem signin_reads_login_view E w1 w2 r :
  map login_view (users w1) = map login_view (users w2) ->
  tick w1 = tick w2 ->
  outcome (serve (signin E) w1 r) = outcome (serve (signin E) w2 r) /\
  calls (serve (signin E) w1 r) = calls (serve (signin E) w2 r).
Proof.
  intros Hview Ht.
  unfold serve, signin. destruct (Method r =? "OPTIONS")%string.
  - now split.
  - destruct (Body r) as [c|]; [|now split].
    pose proof (find_login_view (Email c) _ _ Hview) as Hfind.
    unfold_api. cbn. rewrite Ht.
    destruct (io_fault E (tick w2)); cbn; [now split|].
    destruct (find _ (users w1)) as [u1|], (find _ (users w2)) as [u2|];
      cbn in Hfind; try discriminate; cbn; [|now split].
    injection Hfind as _ Hh Hi. rewrite Hh, Hi.
    repeat branch; now split.
Qed.

Lemma signin_reads_login_view_witness :
  let E := sampleEnv true steady_clock no_fault in
  let w1 := mkWorld [alice] 0 in
  let w2 := mkWorld [set_verified true (set_resetToken "q7" alice)] 0 in
  let r := signin_alice "pw1" in
  (map login_view (users w1) = map login_view (users w2) /\
   tick w1 = tick w2 /\ verified alice = false) /\
  outcome (serve (signin E) w1 r) = outcome (serve (signin E) w2 r).
Proof.
  intros E w1 w2 r.
  assert (Hv : map login_view (users w1) = map login_view (users w2))
    by reflexivity.
  assert (Ht : tick w1 = tick w2) by reflexivity.
  split; [repeat split; assumption|].
  destruct (signin_reads_login_view E w1 w2 r Hv Ht) as [Hout _].
  exact Hout.
Defined.

(** X8.  A signup that was answered 201 can sign in: on the table it
    leaves, a [signin] with the same email and password, no call failing,
    replies 200 with both cookies, and the access token is signed for the
    user id that the signup generated. *)
Theorem signup_then_signin E w r r2 c2 :
  Method r <> "OPTIONS" ->
  status (outcome (serve (signup E) w r)) = Some StatusCreated ->
  Method r2 <> "OPTIONS" ->
  Body r2 = Some c2 ->
  Email c2 = Values_Get (Query r) "email" ->
  Password c2 = Values_Get (Query r) "password" ->
  let w1 := final (serve (signup E) w r) in
  Forall (fun e => errored e = false) (calls (serve (signin E) w1 r2)) ->
  exists access refresh,
    outcome (serve (signin E) w1 r2)
    = Replied StatusOK ""
        [mkCookie "access_token" access
                  (Add (clock E (2 + tick w1)) (DefaultAccessJWTExpiry E)) "/";
         mkCookie "refresh_token" refresh
                  (Add (clock E (5 + tick w1)) (DefaultRefreshJWTExpiry E)) "/"] /\
    In (EvSign (mkAuthClaims (uuid_New E (4 + tick w)) "access"
                  (Unix (Add (clock E (2 + tick w1)) (DefaultAccessJWTExpiry E)))
                  (defaultJWTIssuer E) (Unix (clock E (3 + tick w1))))
               (Some access))
       (calls (serve (signin E) w1 r2)).
Proof.
  intros Hm Hcreated Hm2 Hb2 He2 Hp2 w1 Hok.
  apply (signup_status_created E w r Hm) in Hcreated.
  destruct (signup_created E w r Hm Hcreated)
    as [hashed [a0 [r0 [_ [Hcmp [_ [Hfree [Hrows _]]]]]]]].
  fold w1 in Hrows.
  set (row := mkUser (Values_Get (Query r) "username")
                     (Values_Get (Query r) "email") hashed false None
                     (RandomBase62 E verifyTokenSize (5 + tick w))
                     (uuid_New E (4 + tick w)) None) in *.
  assert (Hfind : find (fun x => (email x =? Email c2)%string) (users w1)
                  = Some row).
  { rewrite Hrows, He2. now apply (find_snoc email). }
  assert (Hcmp2 : CompareHashAndPassword E (hashedPassword row) (Password c2)
                  = true) by (rewrite Hp2; exact Hcmp).
  destruct (signin_accepts E w1 r2 c2 row Hm2 Hb2 Hfind Hcmp2 Hok)
    as [access [refresh [Hout [Hsign _]]]].
  exists access, refresh. now split.
Qed.

Lemma signup_then_signin_witness :
  let E := sampleEnv true steady_clock no_fault in
  let w := mkWorld [bob] 0 in
  let r := signup_alice "pw1" in
  let r2 := signin_alice "pw1" in
  let w1 := final (serve (signup E) w r) in
  (Method r <> "OPTIONS" /\
   status (outcome (serve (signup E) w r)) = Some StatusCreated /\
   Method r2 <> "OPTIONS" /\
   Forall (fun e => errored e = false) (calls (serve (signin E) w1 r2))) /\
  status (outcome (serve (signin E) w1 r2)) = Some StatusOK.
Proof.
  intros E w r r2 w1.
  assert (Hm : Method r <> "OPTIONS") by discriminate.
  assert (Hc : status (outcome (serve (signup E) w r)) = Some StatusCreated)
    by (vm_compute; reflexivity).
  assert (Hm2 : Method r2 <> "OPTIONS") by discriminate.
  assert (Hok : Forall (fun e => errored e = false)
                       (calls (serve (signin E) w1 r2))).
  { vm_compute. repeat constructor. }
  split; [repeat split; assumption|].
  destruct (signup_then_signin E w r r2 (mkCredentials "" "alice@x.com" "pw1")
              Hm Hc Hm2 eq_refl eq_refl eq_refl Hok)
    as [access [refresh [Hout _]]].
  fold w1 in Hout. now rewrite Hout.
Defined.

(** ** Password reset, request and completion together *)

Lemma resetPassword_accepts E w r c :
  Method r <> "OPTIONS" ->
  Body r = Some c ->
  Username c <> "" -> Email c <> "" -> Password c <> "" ->
  existsb (fun u => (username u =? Username c)%string
                    && opt_eqb (resetToken u) (Values_Get (Query r) "token"))
          (users w) = true ->
  Forall (fun e => errored e = false) (calls (serve (resetPassword E) w r)) ->
  exists hashed,
    outcome (serve (resetPassword E) w r) = Replied StatusOK "" [] /\
    users (final (serve (resetPassword E) w r))
    = update_where (fun u => (email u =? Email c)%string)
                   (set_resetToken_password "" hashed) (users w).
Proof.
  intros Hm Hb Hu He Hp Hpair.
  unfold serve, resetPassword.
  rewrite (not_options r Hm), Hb, (nonempty _ Hu), (nonempty _ He), (nonempty _ Hp).
  unfold_api. cbn.
  branch; [intros H; no_error H|].
  rewrite Hpair. cbn.
  clean_run ltac:(eexists; split; reflexivity).
Qed.

Lemma resetPassword_unmatched E w r c :
  Method r <> "OPTIONS" ->
  Body r = Some c ->
  Username c <> "" -> Email c <> "" -> Password c <> "" ->
  existsb (fun u => (username u =? Username c)%string
                    && opt_eqb (resetToken u) (Values_Get (Query r) "token"))
          (users w) = false ->
  io_fault E (tick w) = None ->
  outcome (serve (resetPassword E) w r) = Aborted /\
  users (final (serve (resetPassword E) w r)) = users w.
Proof.
  intros Hm Hb Hu He Hp Hpair Hf.
  unfold serve, resetPassword.
  rewrite (not_options r Hm), Hb, (nonempty _ Hu), (nonempty _ He), (nonempty _ Hp).
  unfold_api. cbn. rewrite Hf. cbn. rewrite Hpair. cbn. now split.
Qed.

(** A POST that [resetPassword] answers with an empty 200 had its three
    fields filled in and ran the final UPDATE. *)
Lemma resetPassword_done E w r c :
  Method r <> "OPTIONS" ->
  Body r = Some c ->
  outcome (serve (resetPassword E) w r) = Replied StatusOK "" [] ->
  (Username c <> "" /\ Email c <> "" /\ Password c <> "") /\
  exists hashed,
    users (final (serve (resetPassword E) w r))
    = update_where (fun u => (email u =? Email c)%string)
                   (set_resetToken_password "" hashed) (users w).
Proof.
  intros Hm Hb.
  unfold serve, resetPassword. rewrite (not_options r Hm), Hb.
  destruct (Username c =? "")%string eqn:Hu; [discriminate|].
  destruct (Email c =? "")%string eqn:He; [discriminate|].
  destruct (Password c =? "")%string eqn:Hp; [discriminate|].
  apply String.eqb_neq in Hu, He, Hp.
  unfold_api. cbn.
  repeat branch; intros H; try discriminate H;
    (split; [now repeat split | eexists; reflexivity]).
Qed.

Lemma pair_kept n t e h rows holder :
  In holder rows -> username holder = n -> resetToken holder = Some t ->
  email holder <> e ->
  existsb (fun u => (username u =? n)%string && opt_eqb (resetToken u) t)
          (update_where (fun u => (email u =? e)%string)
                        (set_resetToken_password "" h) rows) = true.
Proof.
  intros Hin Hn Ht He. apply pair_exists_iff. exists holder.
  split; [|now split].
  apply update_where_frame; [assumption | now apply String.eqb_neq].
Qed.

Lemma pair_emptied n e h rows owner :
  In owner rows -> username owner = n -> email owner = e ->
  existsb (fun u => (username u =? n)%string && opt_eqb (resetToken u) "")
          (update_where (fun u => (email u =? e)%string)
                        (set_resetToken_password "" h) rows) = true.
Proof.
  intros Hin Hn He. apply pair_exists_iff.
  exists (set_resetToken_password "" h owner). split; [|now split].
  apply (update_where_hit (fun u => (email u =? e)%string));
    [assumption | now apply String.eqb_eq].
Qed.

Lemma pair_gone n t e h rows :
  (forall u, In u rows -> username u = n -> email u = e) ->
  t <> "" ->
  existsb (fun u => (username u =? n)%string && opt_eqb (resetToken u) t)
          (update_where (fun u => (email u =? e)%string)
                        (set_resetToken_password "" h) rows) = false.
Proof.
  intros Hsame Ht.
  destruct (existsb _ (update_where _ _ rows)) eqn:Hex; [|reflexivity].
  apply pair_exists_iff in Hex as [x [Hin [Hn Hx]]].
  unfold update_where in Hin. apply in_map_iff in Hin as [u [Hux Hu]].
  destruct (email u =? e)%string eqn:He; subst x.
  - cbn in Hx. injection Hx as Hx. now destruct Ht.
  - apply String.eqb_neq in He. now destruct (He (Hsame u Hu Hn)).
Qed.

(** X9.  The token that [sendReset] mails is accepted: after a
    [sendReset] for the email of a row, no call failing, a [resetPassword]
    that names that row's user and carries the mailed token passes the
    pair check and, no call failing, is answered with an empty 200. *)
Theorem reset_after_request E w r1 c1 r2 c2 owner :
  Method r1 <> "OPTIONS" -> Body r1 = Some c1 -> Email c1 <> "" ->
  In owner (users w) -> email owner = Email c1 ->
  Forall (fun e => errored e = false) (calls (serve (sendReset E) w r1)) ->
  Method r2 <> "OPTIONS" -> Body r2 = Some c2 ->
  Username c2 = username owner ->
  Username c2 <> "" -> Email c2 <> "" -> Password c2 <> "" ->
  Values_Get (Query r2) "token" = RandomBase62 E resetTokenSize (tick w) ->
  Forall (fun e => errored e = false)
         (calls (serve (resetPassword E) (final (serve (sendReset E) w r1)) r2)) ->
  In (EvMail (Email c1) "BearChat Password Reset" "password-reset.html"
             (RandomBase62 E resetTokenSize (tick w)) None)
     (calls (serve (sendReset E) w r1)) /\
  outcome (serve (resetPassword E) (final (serve (sendReset E) w r1)) r2)
  = Replied StatusOK "" [].
Proof.
  intros Hm1 Hb1 He1 Hin Hoe Hok1 Hm2 Hb2 Hn Hu2 He2 Hp2 Htok Hok2.
  destruct (sendReset_ok E w r1 c1 Hm1 Hb1 He1 Hok1) as [_ Hrows].
  split.
  - revert Hok1. unfold serve, sendReset.
    rewrite (not_options r1 Hm1), Hb1, (nonempty _ He1).
    unfold_api. cbn.
    clean_run ltac:(cbn; find_member).
  - set (w1 := final (serve (sendReset E) w r1)) in *.
    assert (Hpair : existsb
              (fun u => (username u =? Username c2)%string
                        && opt_eqb (resetToken u) (Values_Get (Query r2) "token"))
              (users w1) = true).
    { apply pair_exists_iff.
      exists (set_resetToken (RandomBase62 E resetTokenSize (tick w)) owner).
      rewrite Hrows, Htok, Hn. split; [|now split].
      apply (update_where_hit (fun u => (email u =? Email c1)%string));
        [assumption | now apply String.eqb_eq]. }
    destruct (resetPassword_accepts E w1 r2 c2 Hm2 Hb2 Hu2 He2 Hp2 Hpair Hok2)
      as [hashed [Hout _]].
    exact Hout.
Qed.

Lemma reset_after_request_witness :
  let E := sampleEnv true steady_clock no_fault in
  let w := mkWorld [alice; bob] 0 in
  let c1 := mkCredentials "" "alice@x.com" "" in
  let r1 := post [] (Some c1) in
  let c2 := mkCredentials "alice" "alice@x.com" "pw2" in
  let r2 := post [("token", ["Tok100"])] (Some c2) in
  (Values_Get (Query r2) "token" = RandomBase62 E resetTokenSize (tick w) /\
   Forall (fun e => errored e = false) (calls (serve (sendReset E) w r1)) /\
   Forall (fun e => errored e = false)
          (calls (serve (resetPassword E) (final (serve (sendReset E) w r1)) r2))) /\
  outcome (serve (resetPassword E) (final (serve (sendReset E) w r1)) r2)
  = Replied StatusOK "" [].
Proof.
  intros E w c1 r1 c2 r2.
  assert (Htok : Values_Get (Query r2) "token"
                 = RandomBase62 E resetTokenSize (tick w)) by reflexivity.
  assert (Hok1 : Forall (fun e => errored e = false)
                        (calls (serve (sendReset E) w r1))).
  { vm_compute. repeat constructor. }
  assert (Hok2 : Forall (fun e => errored e = false)
                        (calls (serve (resetPassword E)
                                      (final (serve (sendReset E) w r1)) r2))).
  { vm_compute. repeat constructor. }
  split; [repeat split; assumption|].
  assert (Hm : Method r1 <> "OPTIONS") by discriminate.
  assert (He : Email c1 <> "") by discriminate.
  assert (Hin : In alice (users w)) by (left; reflexivity).
  assert (Hm2 : Method r2 <> "OPTIONS") by discriminate.
  assert (Hu2 : Username c2 <> "") by discriminate.
  assert (He2 : Email c2 <> "") by discriminate.
  assert (Hp2 : Password c2 <> "") by discriminate.
  destruct (reset_after_request E w r1 c1 r2 c2 alice Hm eq_refl He Hin eq_refl
              Hok1 Hm2 eq_refl eq_refl Hu2 He2 Hp2 Htok Hok2) as [_ Hout].
  exact Hout.
Defined.

(** X10.  A completed reset leaves the empty string as reset token, and a
    request without any token reads as the empty token.  So after a
    [resetPassword] that was answered 200 for an email, a later
    [resetPassword] without a [token] parameter, for the user of a row
    with that email and with any new password, passes the pair check and,
    no call failing, is answered 200 again. *)
Theorem reset_accepts_empty_token E w r1 c1 r2 c2 owner :
  Method r1 <> "OPTIONS" -> Body r1 = Some c1 ->
  outcome (serve (resetPassword E) w r1) = Replied StatusOK "" [] ->
  In owner (users w) -> email owner = Email c1 ->
  Method r2 <> "OPTIONS" -> Body r2 = Some c2 ->
  Username c2 = username owner ->
  Username c2 <> "" -> Email c2 <> "" -> Password c2 <> "" ->
  Values_index (Query r2) "token" = None ->
  Forall (fun e => errored e = false)
         (calls (serve (resetPassword E) (final (serve (resetPassword E) w r1)) r2)) ->
  outcome (serve (resetPassword E) (final (serve (resetPassword E) w r1)) r2)
  = Replied StatusOK "" [].
Proof.
  intros Hm1 Hb1 Hout1 Hin Hoe Hm2 Hb2 Hn Hu2 He2 Hp2 Hq Hok2.
  destruct (resetPassword_done E w r1 c1 Hm1 Hb1 Hout1) as [_ [hashed Hrows]].
  set (w1 := final (serve (resetPassword E) w r1)) in *.
  assert (Hpair : existsb
            (fun u => (username u =? Username c2)%string
                      && opt_eqb (resetToken u) (Values_Get (Query r2) "token"))
            (users w1) = true).
  { unfold Values_Get. rewrite Hq, Hrows, Hn.
    now apply pair_emptied with (owner := owner). }
  destruct (resetPassword_accepts E w1 r2 c2 Hm2 Hb2 Hu2 He2 Hp2 Hpair Hok2)
    as [h2 [Hout _]].
  exact Hout.
Qed.

Lemma reset_accepts_empty_token_witness :
  let E := sampleEnv true steady_clock no_fault in
  let w := mkWorld [alice; bob] 0 in
  let c1 := mkCredentials "bob" "bob@x.com" "pw2" in
  let r1 := post [("token", ["Zz91qP"])] (Some c1) in
  let c2 := mkCredentials "bob" "bob@x.com" "pw3" in
  let r2 := post [] (Some c2) in
  (outcome (serve (resetPassword E) w r1) = Replied StatusOK "" [] /\
   Values_index (Query r2) "token" = None /\
   Forall (fun e => errored e = false)
          (calls (serve (resetPassword E)
                        (final (serve (resetPassword E) w r1)) r2))) /\
  outcome (serve (resetPassword E) (final (serve (resetPassword E) w r1)) r2)
  = Replied StatusOK "" [].
Proof.
  intros E w c1 r1 c2 r2.
  assert (Hout1 : outcome (serve (resetPassword E) w r1) = Replied StatusOK "" [])
    by (vm_compute; reflexivity).
  assert (Hq : Values_index (Query r2) "token" = None) by reflexivity.
  assert (Hok2 : Forall (fun e => errored e = false)
                        (calls (serve (resetPassword E)
                                      (final (serve (resetPassword E) w r1)) r2))).
  { vm_compute. repeat constructor. }
  split; [repeat split; assumption|].
  assert (Hm : Method r1 <> "OPTIONS") by discriminate.
  assert (Hin : In bob (users w)) by (right; left; reflexivity).
  assert (Hm2 : Method r2 <> "OPTIONS") by discriminate.
  assert (Hu2 : Username c2 <> "") by discriminate.
  assert (He2 : Email c2 <> "") by discriminate.
  assert (Hp2 : Password c2 <> "") by discriminate.
  exact (reset_accepts_empty_token E w r1 c1 r2 c2 bob Hm eq_refl Hout1 Hin
           eq_refl Hm2 eq_refl eq_refl Hu2 He2 Hp2 Hq Hok2).
Defined.

(** X11.  The token is not consumed when the email of the request is that
    of another row: if the pair matches a row whose email differs from the
    one sent and the request was answered 200, then the very same request,
    sent again with no call failing, is answered 200 again. *)
Theorem reset_token_replayed E w r c holder :
  Method r <> "OPTIONS" -> Body r = Some c ->
  In holder (users w) ->
  username holder = Username c ->
  resetToken holder = Some (Values_Get (Query r) "token") ->
  email holder <> Email c ->
  outcome (serve (resetPassword E) w r) = Replied StatusOK "" [] ->
  Forall (fun e => errored e = false)
         (calls (serve (resetPassword E) (final (serve (resetPassword E) w r)) r)) ->
  outcome (serve (resetPassword E) (final (serve (resetPassword E) w r)) r)
  = Replied StatusOK "" [].
Proof.
  intros Hm Hb Hin Hn Ht He Hout1 Hok2.
  destruct (resetPassword_done E w r c Hm Hb Hout1)
    as [[Hu [He' Hp]] [hashed Hrows]].
  set (w1 := final (serve (resetPassword E) w r)) in *.
  assert (Hpair : existsb
            (fun u => (username u =? Username c)%string
                      && opt_eqb (resetToken u) (Values_Get (Query r) "token"))
            (users w1) = true).
  { rewrite Hrows. now apply pair_kept with (holder := holder). }
  destruct (resetPassword_accepts E w1 r c Hm Hb Hu He' Hp Hpair Hok2)
    as [h2 [Hout _]].
  exact Hout.
Qed.

Lemma reset_token_replayed_witness :
  let E := sampleEnv true steady_clock no_fault in
  let w := mkWorld [alice; bob] 0 in
  let c := mkCredentials "bob" "alice@x.com" "pw2" in
  let r := post [("token", ["Zz91qP"])] (Some c) in
  (In bob (users w) /\ username bob = Username c /\
   resetToken bob = Some (Values_Get (Query r) "token") /\
   email bob <> Email c /\
   outcome (serve (resetPassword E) w r) = Replied StatusOK "" [] /\
   Forall (fun e => errored e = false)
          (calls (serve (resetPassword E)
                        (final (serve (resetPassword E) w r)) r))) /\
  outcome (serve (resetPassword E) (final (serve (resetPassword E) w r)) r)
  = Replied StatusOK "" [].
Proof.
  intros E w c r.
  assert (Hin : In bob (users w)) by (right; left; reflexivity).
  assert (Hn : username bob = Username c) by reflexivity.
  assert (Ht : resetToken bob = Some (Values_Get (Query r) "token"))
    by reflexivity.
  assert (He : email bob <> Email c) by discriminate.
  assert (Hout1 : outcome (serve (resetPassword E) w r) = Replied StatusOK "" [])
    by (vm_compute; reflexivity).
  assert (Hok2 : Forall (fun e => errored e = false)
                        (calls (serve (resetPassword E)
                                      (final (serve (resetPassword E) w r)) r))).
  { vm_compute. repeat constructor. }
  split; [repeat split; assumption|].
  assert (Hm : Method r <> "OPTIONS") by discriminate.
  exact (reset_token_replayed E w r c bob Hm eq_refl Hin Hn Ht He Hout1 Hok2).
Defined.

(** X12.  The token is consumed when the email is the user's own: if
    every row with the user name of the request has the email of the
    request, the token is not empty and the request was answered 200, then
    the same request sent again (the pair query being answered) finds no
    matching pair: it fails, with no response reaching the client, and
    changes nothing. *)
Theorem reset_token_single_use E w r c :
  Method r <> "OPTIONS" -> Body r = Some c ->
  (forall u, In u (users w) -> username u = Username c -> email u = Email c) ->
  Values_Get (Query r) "token" <> "" ->
  outcome (serve (resetPassword E) w r) = Replied StatusOK "" [] ->
  io_fault E (tick (final (serve (resetPassword E) w r))) = None ->
  outcome (serve (resetPassword E) (final (serve (resetPassword E) w r)) r)
  = Aborted /\
  users (final (serve (resetPassword E) (final (serve (resetPassword E) w r)) r))
  = users (final (serve (resetPassword E) w r)).
Proof.
  intros Hm Hb Hsame Ht Hout1 Hf.
  destruct (resetPassword_done E w r c Hm Hb Hout1)
    as [[Hu [He Hp]] [hashed Hrows]].
  set (w1 := final (serve (resetPassword E) w r)) in *.
  assert (Hpair : existsb
            (fun u => (username u =? Username c)%string
                      && opt_eqb (resetToken u) (Values_Get (Query r) "token"))
            (users w1) = false).
  { rewrite Hrows. now apply pair_gone. }
  exact (resetPassword_unmatched E w1 r c Hm Hb Hu He Hp Hpair Hf).
Qed.

Lemma reset_token_single_use_witness :
  let E := sampleEnv true steady_clock no_fault in
  let w := mkWorld [alice; bob] 0 in
  let c := mkCredentials "bob" "bob@x.com" "pw2" in
  let r := post [("token", ["Zz91qP"])] (Some c) in
  ((forall u, In u (users w) -> username u = Username c -> email u = Email c) /\
   Values_Get (Query r) "token" <> "" /\
   outcome (serve (resetPassword E) w r) = Replied StatusOK "" [] /\
   io_fault E (tick (final (serve (resetPassword E) w r))) = None) /\
  outcome (serve (resetPassword E) (final (serve (resetPassword E) w r)) r)
  = Aborted.
Proof.
  intros E w c r.
  assert (Hsame : forall u, In u (users w) -> username u = Username c ->
                            email u = Email c).
  { intros u [<-|[<-|[]]] H; [discriminate H | reflexivity]. }
  assert (Ht : Values_Get (Query r) "token" <> "") by discriminate.
  assert (Hout1 : outcome (serve (resetPassword E) w r) = Replied StatusOK "" [])
    by (vm_compute; reflexivity).
  assert (Hf : io_fault E (tick (final (serve (resetPassword E) w r))) = None)
    by reflexivity.
  split; [repeat split; assumption|].
  assert (Hm : Method r <> "OPTIONS") by discriminate.
  destruct (reset_token_single_use E w r c Hm eq_refl Hsame Ht Hout1 Hf)
    as [Hout _].
  exact Hout.
Defined.

(** ** Requests that are turned away before any call *)

Lemma world_eta w : mkWorld (users w) (tick w) = w.
Proof. now destruct w. Qed.

(** X13.  Every registered handler answers an OPTIONS request with an
    empty 200 and does nothing else: no call is made and the state is the
    one it found. *)
Theorem options_preflight E path h w r :
  In (path, h) (routes E) ->
  Method r = "OPTIONS" ->
  serve h w r = mkReply w [] (Replied StatusOK "" []).
Proof.
  intros Hin Hm. rewrite <- (world_eta w) at 2.
  unfold routes in Hin.
  repeat (destruct Hin as [Hin|Hin];
          [injection Hin as _ <-;
           unfold serve, signup, signin, logout, verify, sendReset, resetPassword;
           rewrite Hm; reflexivity|]).
  contradiction.
Qed.

Lemma options_preflight_witness :
  let E := sampleEnv true steady_clock no_fault in
  let w := mkWorld [alice] 3 in
  let r := mkRequest "OPTIONS" [("token", ["Ab3dE9"])] None in
  (In ("/api/auth/resetpw", resetPassword E) (routes E) /\
   Method r = "OPTIONS") /\
  serve (resetPassword E) w r = mkReply w [] (Replied StatusOK "" []).
Proof.
  intros E w r.
  assert (Hin : In ("/api/auth/resetpw", resetPassword E) (routes E))
    by (do 5 right; left; reflexivity).
  assert (Hm : Method r = "OPTIONS") by reflexivity.
  split; [now split|].
  exact (options_preflight E _ _ w r Hin Hm).
Defined.

(** X14.  Without a [token] parameter, or with an empty first value,
    [verify] replies 500 "url Param 'token' is missing" and reaches no
    statement. *)
Theorem verify_missing_token E w r :
  Method r <> "OPTIONS" ->
  (Values_index (Query r) "token" = None \/
   exists rest, Values_index (Query r) "token" = Some ("" :: rest)) ->
  serve (verify E) w r
  = mkReply w [] (Replied StatusInternalServerError
                          ("url Param 'token' is missing" ++ nl) []).
Proof.
  intros Hm Hq. rewrite <- (world_eta w) at 2.
  unfold serve, verify. rewrite (not_options r Hm).
  destruct Hq as [Hq|[rest Hq]]; rewrite Hq; reflexivity.
Qed.

Lemma verify_missing_token_witness :
  let E := sampleEnv true steady_clock no_fault in
  let w := mkWorld [alice] 0 in
  let r := post [("token", [""; "Ab3dE9"])] None in
  (Method r <> "OPTIONS" /\
   Values_index (Query r) "token" = Some [""; "Ab3dE9"]) /\
  serve (verify E) w r
  = mkReply w [] (Replied StatusInternalServerError
                          ("url Param 'token' is missing" ++ nl) []).
Proof.
  intros E w r.
  assert (Hm : Method r <> "OPTIONS") by discriminate.
  assert (Hq : Values_index (Query r) "token" = Some [""; "Ab3dE9"])
    by reflexivity.
  split; [now split|].
  apply (verify_missing_token E w r Hm). right. now exists ["Ab3dE9"].
Defined.

(** X15.  A body that does not decode is answered 500 by [signin],
    [sendReset] and [resetPassword], each with its own message, before
    any call is made. *)
Theorem undecodable_body E w r :
  Method r <> "OPTIONS" ->
  Body r = None ->
  serve (signin E) w r
  = mkReply w [] (Replied StatusInternalServerError
                          ("issue storing credentials" ++ nl) []) /\
  serve (sendReset E) w r
  = mkReply w [] (Replied StatusInternalServerError
                          ("issue retrieving email" ++ nl) []) /\
  serve (resetPassword E) w r
  = mkReply w [] (Replied StatusInternalServerError
                          ("issue retrieving credentials" ++ nl) []).
Proof.
  intros Hm Hb. rewrite <- (world_eta w) at 2 4 6.
  unfold serve, signin, sendReset, resetPassword.
  rewrite (not_options r Hm), Hb. repeat split.
Qed.

Lemma undecodable_body_witness :
  let E := sampleEnv true steady_clock no_fault in
  let w := mkWorld [alice] 0 in
  let r := post [("token", ["Ab3dE9"])] None in
  (Method r <> "OPTIONS" /\ Body r = None) /\
  serve (resetPassword E) w r
  = mkReply w [] (Replied StatusInternalServerError
                          ("issue retrieving credentials" ++ nl) []).
Proof.
  intros E w r.
  assert (Hm : Method r <> "OPTIONS") by discriminate.
  assert (Hb : Body r = None) by reflexivity.
  split; [now split|].
  destruct (undecodable_body E w r Hm Hb) as [_ [_ H]]. exact H.
Defined.

(** X16.  An empty field makes the handler panic right after it has
    written its 406: [sendReset] with an empty email, and [resetPassword]
    with an empty user name, email or password, log [err.Error()] while
    [err] is nil.  The client gets no response; no call was made and the
    state is untouched. *)
Theorem empty_field_aborts E w r c :
  Method r <> "OPTIONS" ->
  Body r = Some c ->
  (Email c = "" -> serve (sendReset E) w r = mkReply w [] Aborted) /\
  (Username c = "" \/ Email c = "" \/ Password c = "" ->
   serve (resetPassword E) w r = mkReply w [] Aborted).
Proof.
  intros Hm Hb. rewrite <- (world_eta w) at 2 4.
  unfold serve, sendReset, resetPassword. rewrite (not_options r Hm), Hb.
  split.
  - intros ->. reflexivity.
  - intros [Hu|[He|Hp]].
    + rewrite Hu. reflexivity.
    + rewrite He. destruct (Username c =? "")%string; reflexivity.
    + rewrite Hp.
      destruct (Username c =? "")%string; [reflexivity|].
      destruct (Email c =? "")%string; reflexivity.
Qed.

Lemma empty_field_aborts_witness :
  let E := sampleEnv true steady_clock no_fault in
  let w := mkWorld [alice] 0 in
  let c := mkCredentials "alice" "" "pw2" in
  let r := post [("token", ["x"])] (Some c) in
  (Method r <> "OPTIONS" /\ Body r = Some c /\ Email c = "") /\
  serve (sendReset E) w r = mkReply w [] Aborted /\
  serve (resetPassword E) w r = mkReply w [] Aborted.
Proof.
  intros E w c r.
  assert (Hm : Method r <> "OPTIONS") by discriminate.
  assert (Hb : Body r = Some c) by reflexivity.
  assert (He : Email c = "") by reflexivity.
  split; [repeat split; assumption|].
  destruct (empty_field_aborts E w r c Hm Hb) as [Hs Hr].
  split; [exact (Hs He) | apply Hr; right; left; exact He].
Defined.

(** ** What each handler does to the table *)

Lemma signin_rows E w r :
  users (final (serve (signin E) w r)) = users w.
Proof.
  unfold serve, signin.
  destruct (Method r =? "OPTIONS")%string; [reflexivity|].
  destruct (Body r) as [c|]; [|reflexivity].
  unfold_api. cbn.
  destruct (io_fault E (tick w)); cbn; [reflexivity|].
  destruct (find _ (users w)); cbn; [|reflexivity].
  repeat branch; reflexivity.
Qed.

Lemma logout_rows E w r :
  users (final (serve (logout E) w r)) = users w.
Proof.
  unfold serve, logout.
  destruct (Method r =? "OPTIONS")%string; reflexivity.
Qed.

Lemma verify_rows E w r :
  users (final (serve (verify E) w r)) = users w.
Proof.
  unfold serve, verify.
  destruct (Method r =? "OPTIONS")%string; [reflexivity|].
  destruct (Values_index (Query r) "token") as [[|t rest]|]; try reflexivity.
  destruct (Z.of_nat (String.length t) <? 1); [reflexivity|].
  unfold_api. cbn. destruct (io_fault E (tick w)); reflexivity.
Qed.

Lemma sendReset_rows E w r :
  map frozen_view (users (final (serve (sendReset E) w r)))
  = map frozen_view (users w).
Proof.
  unfold serve, sendReset.
  destruct (Method r =? "OPTIONS")%string; [reflexivity|].
  destruct (Body r) as [c|]; [|reflexivity].
  destruct (Email c =? "")%string; [reflexivity|].
  unfold_api. cbn.
  repeat branch; try reflexivity; apply frozen_view_resetToken.
Qed.

Lemma resetPassword_rows E w r :
  map frozen_view (users (final (serve (resetPassword E) w r)))
  = map frozen_view (users w).
Proof.
  unfold serve, resetPassword.
  destruct (Method r =? "OPTIONS")%string; [reflexivity|].
  destruct (Body r) as [c|]; [|reflexivity].
  destruct (Username c =? "")%string; [reflexivity|].
  destruct (Email c =? "")%string; [reflexivity|].
  destruct (Password c =? "")%string; [reflexivity|].
  unfold_api. cbn.
  repeat branch; try reflexivity; apply frozen_view_resetToken_password.
Qed.

Lemma signup_rows E w r :
  users (final (serve (signup E) w r)) = users w \/
  exists u,
    users (final (serve (signup E) w r)) = (users w ++ [u])%list /\
    (forall x, In x (users w) -> username x <> username u) /\
    (forall x, In x (users w) -> email x <> email u) /\
    username u = Values_Get (Query r) "username" /\
    email u = Values_Get (Query r) "email" /\
    verified u = false /\ resetToken u = None /\ password u = None.
Proof.
  unfold serve, signup.
  destruct (Method r =? "OPTIONS")%string; [now left|].
  unfold_api. cbn.
  repeat branch; try (now left);
    right; eexists; (split; [reflexivity|]); cbn;
    (split; [now apply (existsb_none username)|]);
    (split; [now apply (existsb_none email)|]);
    repeat split.
Qed.

(** X17.  [signin], [logout] and [verify] never write: whatever the
    request and whatever the environment answers, the table after the
    request is the table before it. *)
Theorem read_only_handlers E w r :
  users (final (serve (signin E) w r)) = users w /\
  users (final (serve (logout E) w r)) = users w /\
  users (final (serve (verify E) w r)) = users w.
Proof.
  split; [apply signin_rows|]. split; [apply logout_rows | apply verify_rows].
Qed.

(** X18.  No registered handler removes a row or changes the user name,
    email, hash, verified flag, verification token or user id of a row:
    after any request these columns are as before, except that [signup]
    may have appended one row, unverified and without reset token. *)
Theorem routes_keep_rows E path h w r :
  In (path, h) (routes E) ->
  map frozen_view (users (final (serve h w r))) = map frozen_view (users w) \/
  (path = "/api/auth/signup" /\
   exists u,
     users (final (serve h w r)) = (users w ++ [u])%list /\
     verified u = false /\ resetToken u = None /\ password u = None).
Proof.
  intros Hin. unfold routes in Hin.
  destruct Hin as [Hin|[Hin|[Hin|[Hin|[Hin|[Hin|[]]]]]]];
    injection Hin as <- <-.
  - destruct (signup_rows E w r) as [H|[u [H [_ [_ [_ [_ [Hv [Ht Hp]]]]]]]]].
    + left. now rewrite H.
    + right. split; [reflexivity|]. now exists u.
  - left. now rewrite signin_rows.
  - left. now rewrite logout_rows.
  - left. now rewrite verify_rows.
  - left. apply sendReset_rows.
  - left. apply resetPassword_rows.
Qed.

Lemma routes_keep_rows_witness :
  let E := sampleEnv true steady_clock no_fault in
  let w := mkWorld [alice; bob] 0 in
  let r := post [] (Some (mkCredentials "" "bob@x.com" "")) in
  In ("/api/auth/sendreset", sendReset E) (routes E) /\
  (map frozen_view (users (final (serve (sendReset E) w r)))
   = map frozen_view (users w) \/
   ("/api/auth/sendreset" = "/api/auth/signup" /\
    exists u,
      users (final (serve (sendReset E) w r)) = (users w ++ [u])%list /\
      verified u = false /\ resetToken u = None /\ password u = None)).
Proof.
  intros E w r.
  assert (Hin : In ("/api/auth/sendreset", sendReset E) (routes E))
    by (do 4 right; left; reflexivity).
  split; [exact Hin|].
  exact (routes_keep_rows E _ _ w r Hin).
Defined.

Lemma NoDup_snoc {A} (l : list A) x :
  NoDup l -> ~ In x l -> NoDup (l ++ [x])%list.
Proof.
  intros Hl Hx. apply NoDup_app; [assumption | repeat constructor; intros [] |].
  intros a Ha [<-|[]]. contradiction.
Qed.

(** X19.  Uniqueness of user names and of emails is an invariant: if no
    name and no email occurs twice in the table, the same holds after any
    request to any registered handler. *)
Theorem routes_keep_names_unique E path h w r :
  In (path, h) (routes E) ->
  unique_names (users w) ->
  unique_names (users (final (serve h w r))).
Proof.
  intros Hin [Hn He].
  assert (Hsame : forall rows',
             map frozen_view rows' = map frozen_view (users w) ->
             unique_names rows').
  { intros rows' H. apply frozen_view_names in H as [Hn' He'].
    unfold unique_names. now rewrite Hn', He'. }
  unfold routes in Hin.
  destruct Hin as [Hin|[Hin|[Hin|[Hin|[Hin|[Hin|[]]]]]]];
    injection Hin as <- <-.
  - destruct (signup_rows E w r) as [H|[u [H [Hfn [Hfe _]]]]].
    + rewrite H. now split.
    + rewrite H. unfold unique_names. rewrite !map_app. cbn. split.
      * apply NoDup_snoc; [assumption|].
        intros Hx. apply in_map_iff in Hx as [x [Hxu Hx]].
        now destruct (Hfn x Hx).
      * apply NoDup_snoc; [assumption|].
        intros Hx. apply in_map_iff in Hx as [x [Hxu Hx]].
        now destruct (Hfe x Hx).
  - apply Hsame. now rewrite signin_rows.
  - apply Hsame. now rewrite logout_rows.
  - apply Hsame. now rewrite verify_rows.
  - apply Hsame. apply sendReset_rows.
  - apply Hsame. apply resetPassword_rows.
Qed.

Lemma routes_keep_names_unique_witness :
  let E := sampleEnv true steady_clock no_fault in
  let w := mkWorld [alice; bob] 0 in
  let r := post [("username", ["carol"]); ("email", ["carol@x.com"]);
                 ("password", ["pw"])] None in
  (In ("/api/auth/signup", signup E) (routes E) /\ unique_names (users w)) /\
  unique_names (users (final (serve (signup E) w r))).
Proof.
  intros E w r.
  assert (Hin : In ("/api/auth/signup", signup E) (routes E))
    by (left; reflexivity).
  assert (Hu : unique_names (users w)).
  { split; repeat constructor; cbn; intuition discriminate. }
  split; [now split|].
  exact (routes_keep_names_unique E _ _ w r Hin Hu).
Defined.
